(** * oemer -> TensorFlow Lite conversion scripts

    A shallow embedding of [convert_oemer_simple.py] and
    [convert_oemer_to_tflite.py].

    Both scripts are glue code around torch, onnx, onnx-tf and TensorFlow.
    Those libraries are not part of the repository: every call into them is
    an oracle of the environment record [Env], which may return a value or
    raise a Python [Exception].  What the scripts themselves do (the order of
    the calls, the [try]/[except] blocks, the files they open, remove and
    measure, the converter settings, the values they return and the exit
    status) is written out as code in a state-and-exception monad over a
    [World] holding the file system, the working directory and the printed
    output. *)

From Stdlib Require Import ZArith NArith QArith Bool List Ascii String Lia.
From stdpp Require Import base option gmap strings fin_maps.

Local Open Scope string_scope.
Local Open Scope N_scope.

(** ** Python exceptions *)

(** An instance of a subclass of [Exception]: its class name and [str(e)]. *)
Record Exception := MkExc { exc_class : string; exc_msg : string }.

(** What can unwind the stack: an [Exception], or the [SystemExit] raised by
    [sys.exit], which [except Exception] does not catch. *)
Inductive BaseExn :=
| Exc (e : Exception)
| SystemExit (code : Z).

Definition ValueError (msg : string) : Exception := MkExc "ValueError" msg.
Definition RuntimeError (msg : string) : Exception := MkExc "RuntimeError" msg.
Definition FileNotFoundError (path : string) : Exception :=
  MkExc "FileNotFoundError" path.
Definition IsADirectoryError (path : string) : Exception :=
  MkExc "IsADirectoryError" path.
Definition NotADirectoryError (path : string) : Exception :=
  MkExc "NotADirectoryError" path.
Definition FileExistsError (path : string) : Exception :=
  MkExc "FileExistsError" path.

(** [except ImportError] also catches its subclass [ModuleNotFoundError]. *)
Definition is_ImportError (e : Exception) : bool :=
  orb (String.eqb (exc_class e) "ImportError")
      (String.eqb (exc_class e) "ModuleNotFoundError").

(** ** Byte strings, files and the world *)

(** A byte string: its length and an opaque identifier of its contents.
    The scripts never look inside the buffers they move around; they only
    write them and ask for the size of the file. *)
Record Bytes := MkBytes { b_len : N; b_payload : N }.

(** The file system is a flat map from path strings to entries.  Parent
    directories are not tracked (a write never fails for a missing parent),
    and paths are compared as written: ["."], [".."] and doubled slashes
    are not normalised. *)
Inductive Entry :=
| File (content : Bytes)
| Dir.

(** Lines written to standard output.  Decorative lines (rules, numbered
    hints) are left out; every line that reports a decision or a
    measurement is kept, with its data instead of its formatted text. *)
Inductive Event :=
| EvBanner                                   (* "oemer -> TensorFlow Lite ..." *)
| EvLoading (what : string)
| EvLoaded (what : string)
| EvImportNote (err : string)                (* "Note: Direct oemer import encountered: e" *)
| EvConverting (what : string)
| EvStep (what : string)
| EvCreated (path : string)
| EvSaved (path : string) (size_mb : Q)
| EvTotal (total_mb : Q)
| EvWithinBudget (total_mb : Q)
| EvBudgetWarning (total_mb : Q)
| EvConversionFailed (err : string)
| EvFallback                                 (* "Fallback: Creating mock TFLite models..." *)
| EvMockStart                                (* "Creating mock TFLite models (for testing)..." *)
| EvMockTotal (total_mb : Q)
| EvNextSteps
| EvDepsOk
| EvDepsMissing (pkgs : list string)
| EvDepsWarning
| EvCopied (name dest : string)
| EvImportError (what : string).

Record World := MkWorld {
  w_fs : gmap string Entry;
  w_cwd : string;
  w_out : list Event
}.

Definition set_fs (f : gmap string Entry -> gmap string Entry) (w : World) : World :=
  MkWorld (f (w_fs w)) (w_cwd w) (w_out w).

(** ** The monad: state that survives exceptions *)

Inductive Res (A : Type) :=
| Ok (a : A)
| Raise (e : BaseExn).
Arguments Ok {A} a.
Arguments Raise {A} e.

Definition M (A : Type) : Type := World -> Res A * World.

Definition ret {A} (a : A) : M A := fun w => (Ok a, w).

Definition bind {A B} (m : M A) (k : A -> M B) : M B :=
  fun w => match m w with
           | (Ok a, w') => k a w'
           | (Raise e, w') => (Raise e, w')
           end.

Definition raise {A} (e : Exception) : M A := fun w => (Raise (Exc e), w).

(** [sys.exit(code)] *)
Definition sys_exit {A} (code : Z) : M A := fun w => (Raise (SystemExit code), w).

(** [try: body  except Exception as e: handler e] *)
Definition try_except {A} (body : M A) (handler : Exception -> M A) : M A :=
  fun w => match body w with
           | (Raise (Exc e), w') => handler e w'
           | r => r
           end.

(** [try: body  except SystemExit: handler] *)
Definition try_except_SystemExit {A} (body : M A) (handler : M A) : M A :=
  fun w => match body w with
           | (Raise (SystemExit _), w') => handler w'
           | r => r
           end.

(** The result of an oracle becomes a return or a raise. *)
Definition lift {A} (r : Exception + A) : M A :=
  match r with
  | inr a => ret a
  | inl e => raise e
  end.

Definition print (ev : Event) : M unit :=
  fun w => (Ok tt, MkWorld (w_fs w) (w_cwd w) (w_out w ++ [ev])).

Declare Scope monad_scope.
Delimit Scope monad_scope with monad.
Notation "x <- c1 ;; c2" := (bind c1 (fun x => c2))
  (at level 100, c1 at next level, right associativity) : monad_scope.
Notation "c1 ;;; c2" := (bind c1 (fun _ => c2))
  (at level 100, right associativity) : monad_scope.
Local Open Scope monad_scope.

(** ** Paths *)

Fixpoint starts_with (p s : string) : bool :=
  match p, s with
  | EmptyString, _ => true
  | String a p', String b s' => andb (Ascii.eqb a b) (starts_with p' s')
  | String _ _, EmptyString => false
  end.

Definition is_absolute (p : string) : bool := starts_with "/" p.

(** [Path(dir) / name]: an absolute right operand replaces the left one. *)
Definition path_join (dir name : string) : string :=
  if is_absolute name then name else dir +:+ "/" +:+ name.

(** How the operating system reads a path given the working directory. *)
Definition resolve (cwd p : string) : string := path_join cwd p.

(** [k] lies strictly below directory [d]. *)
Definition is_under (d k : string) : bool := starts_with (d +:+ "/") k.

(** ** File-system calls *)

(** [with open(path, "wb") as f: f.write(data)] *)
Definition open_wb_write (path : string) (data : Bytes) : M unit :=
  fun w =>
    let k := resolve (w_cwd w) path in
    match w_fs w !! k with
    | Some Dir => (Raise (Exc (IsADirectoryError path)), w)
    | _ => (Ok tt, set_fs (insert k (File data)) w)
    end.

(** Reading a whole file, as [onnx.load(path)] and
    [TFLiteConverter.from_saved_model(dir)] do before parsing. *)
Definition read_file (path : string) : M Bytes :=
  fun w =>
    match w_fs w !! resolve (w_cwd w) path with
    | Some (File b) => (Ok b, w)
    | Some Dir => (Raise (Exc (IsADirectoryError path)), w)
    | None => (Raise (Exc (FileNotFoundError path)), w)
    end.

(** [os.path.getsize(path)]; for a directory the answer is the file
    system's business ([dir_size]). *)
Definition getsize (dir_size : N) (path : string) : M N :=
  fun w =>
    match w_fs w !! resolve (w_cwd w) path with
    | Some (File b) => (Ok (b_len b), w)
    | Some Dir => (Ok dir_size, w)
    | None => (Raise (Exc (FileNotFoundError path)), w)
    end.

(** [os.remove(path)] *)
Definition os_remove (path : string) : M unit :=
  fun w =>
    let k := resolve (w_cwd w) path in
    match w_fs w !! k with
    | Some (File _) => (Ok tt, set_fs (delete k) w)
    | Some Dir => (Raise (Exc (IsADirectoryError path)), w)
    | None => (Raise (Exc (FileNotFoundError path)), w)
    end.

Definition remove_tree (k : string) (fs : gmap string Entry) : gmap string Entry :=
  filter (fun kv => is_under k (fst kv) = false) (delete k fs).

(** [shutil.rmtree(path, ignore_errors=True)]: never raises; a path that is
    not a directory is left alone. *)
Definition rmtree_ignore_errors (path : string) : M unit :=
  fun w =>
    let k := resolve (w_cwd w) path in
    match w_fs w !! k with
    | Some Dir => (Ok tt, set_fs (remove_tree k) w)
    | _ => (Ok tt, w)
    end.

(** [Path(path).mkdir(parents=True, exist_ok=True)] *)
Definition mkdir_parents_exist_ok (path : string) : M unit :=
  fun w =>
    let k := resolve (w_cwd w) path in
    match w_fs w !! k with
    | Some (File _) => (Raise (Exc (FileExistsError path)), w)
    | _ => (Ok tt, set_fs (insert k Dir) w)
    end.

(** [os.chdir(path)] *)
Definition chdir (path : string) : M unit :=
  fun w =>
    let k := resolve (w_cwd w) path in
    match w_fs w !! k with
    | Some Dir => (Ok tt, MkWorld (w_fs w) k (w_out w))
    | Some (File _) => (Raise (Exc (NotADirectoryError path)), w)
    | None => (Raise (Exc (FileNotFoundError path)), w)
    end.

(** ** Sizes in megabytes *)

(** [n / (1024 * 1024)].  Python computes this and the sum of two such
    values in binary64; both are exact there for byte counts below 2^53,
    and 50 is a binary64 number, so the comparisons with 50 below agree
    with the comparisons of these rationals. *)
Definition size_mb (n : N) : Q := Qdiv (inject_Z (Z.of_N n)) (inject_Z (1024 * 1024)).

Definition budget_mb : Q := inject_Z 50.

(** [total <= 50] *)
Definition within_budget (total_mb : Q) : bool := Qle_bool total_mb budget_mb.

(** ** Values of the external libraries *)

Inductive Device := Cuda | Cpu.

(** The two oemer model classes the scripts import. *)
Inductive ModelFamily := Staff | Clef.

Record TorchModel := MkTorchModel {
  tm_family : ModelFamily;
  tm_checkpoint : string;
  tm_training : bool
}.

(** [model.eval()] *)
Definition eval (m : TorchModel) : TorchModel :=
  MkTorchModel (tm_family m) (tm_checkpoint m) false.

Record Tensor := MkTensor { t_shape : list N; t_values : N }.

(** Keyword arguments of [torch.onnx.export] that the scripts set;
    [None] is the library default. *)
Record OnnxExportOpts := MkOnnxExportOpts {
  opset_version : N;
  do_constant_folding : option bool;
  export_params : option bool
}.

Record OnnxModel := MkOnnxModel { onnx_graph : N }.
Record TfRep := MkTfRep { tfrep_graph : N }.
Record SavedModel := MkSavedModel { sm_graph : N }.

(** *** Keras *)

Inductive Padding := Same | Valid.
Inductive Activation := Relu | Sigmoid | Softmax.

Inductive Layer :=
| Conv2D (filters kernel_size : N) (padding : Padding) (activation : Activation)
| MaxPooling2D (pool_size : N)
| UpSampling2D (size : N)
| GlobalAveragePooling2D
| Dense (units : N) (activation : Activation).

(** A symbolic Keras tensor: the shape of the [Input] it descends from, the
    layers applied since, and its own shape. *)
Record KTensor := MkKTensor {
  kt_input_shape : list N;
  kt_layers : list Layer;
  kt_shape : list N
}.

(** [tf.keras.Input(shape=shape, batch_size=batch_size)] *)
Definition keras_Input (shape : list N) (batch_size : N) : KTensor :=
  MkKTensor (batch_size :: shape) [] (batch_size :: shape).

(** Output extent of a window of [k] moved in steps of [s] without padding. *)
Definition valid_extent (n k s : N) : option N :=
  if (k =? 0) || (s =? 0) || (n <? k) then None else Some ((n - k) / s + 1).

(** The shape a layer computes from its input shape (strides default to 1
    for [Conv2D] and to the pool size for [MaxPooling2D], which pads
    [valid]); [None] where Keras raises [ValueError]. *)
Definition layer_output_shape (l : Layer) (s : list N) : option (list N) :=
  match l, s with
  | Conv2D f k Same _, [b; h; w; _] =>
      if (f =? 0) || (k =? 0) then None else Some [b; h; w; f]
  | Conv2D f k Valid _, [b; h; w; _] =>
      if f =? 0 then None else
      match valid_extent h k 1, valid_extent w k 1 with
      | Some h', Some w' => Some [b; h'; w'; f]
      | _, _ => None
      end
  | MaxPooling2D p, [b; h; w; c] =>
      match valid_extent h p p, valid_extent w p p with
      | Some h', Some w' => Some [b; h'; w'; c]
      | _, _ => None
      end
  | UpSampling2D k, [b; h; w; c] => Some [b; h * k; w * k; c]
  | GlobalAveragePooling2D, [b; _; _; c] => Some [b; c]
  | Dense u _, [b; _] => if u =? 0 then None else Some [b; u]
  | Dense u _, [b; d1; _] => if u =? 0 then None else Some [b; d1; u]
  | Dense u _, [b; d1; d2; _] => if u =? 0 then None else Some [b; d1; d2; u]
  | _, _ => None
  end.

(** [layer(x)] *)
Definition call_layer (l : Layer) (x : KTensor) : M KTensor :=
  match layer_output_shape l (kt_shape x) with
  | Some s => ret (MkKTensor (kt_input_shape x) (kt_layers x ++ [l]) s)
  | None => raise (ValueError "incompatible layer input")
  end.

Record KerasModel := MkKerasModel {
  km_input_shape : list N;
  km_layers : list Layer;
  km_output_shape : list N;
  km_weights : N
}.

(** *** The TFLite converter object *)

Inductive Optimize := Optimize_DEFAULT.
Inductive DType := tf_float16 | tf_float32 | tf_int8.
Inductive OpsSet := TFLITE_BUILTINS | TFLITE_BUILTINS_INT8 | SELECT_TF_OPS.

Inductive GraphSource :=
| FromSavedModel (g : SavedModel)
| FromKerasModel (m : KerasModel).

Record Converter := MkConverter {
  source : GraphSource;
  optimizations : list Optimize;
  supported_types : list DType;
  supported_ops : list OpsSet;
  allow_custom_ops : bool
}.

(** The attribute values of a freshly constructed [TFLiteConverter]. *)
Definition new_converter (src : GraphSource) : Converter :=
  MkConverter src [] [] [TFLITE_BUILTINS] false.

Definition set_optimizations (v : list Optimize) (c : Converter) : Converter :=
  MkConverter (source c) v (supported_types c) (supported_ops c) (allow_custom_ops c).
Definition set_supported_types (v : list DType) (c : Converter) : Converter :=
  MkConverter (source c) (optimizations c) v (supported_ops c) (allow_custom_ops c).
Definition set_supported_ops (v : list OpsSet) (c : Converter) : Converter :=
  MkConverter (source c) (optimizations c) (supported_types c) v (allow_custom_ops c).
Definition set_allow_custom_ops (v : bool) (c : Converter) : Converter :=
  MkConverter (source c) (optimizations c) (supported_types c) (supported_ops c) v.

(** ** The environment *)

Record Env := MkEnv {
  (** [import pkg] of a third-party package; [None] when it succeeds *)
  py_import : string -> option Exception;
  cuda_is_available : bool;
  (** [Staff.download_pretrained_model()], [Clef.download_pretrained_model()] *)
  download_pretrained_model : ModelFamily -> Exception + string;
  (** [cls.load_from_checkpoint(checkpoint_path=..., map_location=...)] *)
  load_from_checkpoint : ModelFamily -> string -> option Device -> Exception + TorchModel;
  (** [torch.randn(shape, device=...)] *)
  torch_randn : list N -> option Device -> Exception + Tensor;
  torch_jit_trace : TorchModel -> Tensor -> Exception + unit;
  (** the bytes [torch.onnx.export] writes to its target file *)
  torch_onnx_export : TorchModel -> Tensor -> OnnxExportOpts -> Exception + Bytes;
  (** parsing done by [onnx.load] *)
  onnx_parse : Bytes -> Exception + OnnxModel;
  (** [onnx_tf.backend.prepare] *)
  onnx_tf_prepare : OnnxModel -> Exception + TfRep;
  (** the serialized graph [tf_rep.export_graph] writes *)
  tf_rep_export_graph : TfRep -> Exception + Bytes;
  (** parsing done by [TFLiteConverter.from_saved_model] *)
  saved_model_parse : Bytes -> Exception + SavedModel;
  (** [converter.convert()] *)
  tflite_convert : Converter -> Exception + Bytes;
  (** the parameter values the Keras initializers draw for a stack of layers *)
  keras_initial_weights : list Layer -> N;
  fs_dir_size : N
}.

(** ** Library calls that touch the file system *)

Section LibraryCalls.
Variable env : Env.

(** [import pkg] *)
Definition import_ (pkg : string) : M unit :=
  match py_import env pkg with
  | None => ret tt
  | Some e => raise e
  end.

(** [torch.onnx.export(model, args, path, ...)]: the graph is traced and
    serialized, then written to [path] in one go. *)
Definition onnx_export (model : TorchModel) (args : Tensor) (path : string)
    (opts : OnnxExportOpts) : M unit :=
  data <- lift (torch_onnx_export env model args opts);;
  open_wb_write path data.

(** [onnx.load(path)] *)
Definition onnx_load (path : string) : M OnnxModel :=
  data <- read_file path;;
  lift (onnx_parse env data).

(** [tf_rep.export_graph(dir)]: a SavedModel directory holding
    [saved_model.pb]. *)
Definition export_graph (tf_rep : TfRep) (dir : string) : M unit :=
  data <- lift (tf_rep_export_graph env tf_rep);;
  mkdir_parents_exist_ok dir;;;
  open_wb_write (dir +:+ "/saved_model.pb") data.

(** [tf.lite.TFLiteConverter.from_saved_model(dir)] *)
Definition from_saved_model (dir : string) : M Converter :=
  data <- read_file (dir +:+ "/saved_model.pb");;
  g <- lift (saved_model_parse env data);;
  ret (new_converter (FromSavedModel g)).

(** [tf.keras.Model(inputs=inputs, outputs=outputs)]; the parameters of
    its layers hold freshly drawn values. *)
Definition keras_Model (inputs outputs : KTensor) : KerasModel :=
  MkKerasModel (kt_shape inputs) (kt_layers outputs) (kt_shape outputs)
               (keras_initial_weights env (kt_layers outputs)).

(** [tf.lite.TFLiteConverter.from_keras_model(model)] *)
Definition from_keras_model (model : KerasModel) : Converter :=
  new_converter (FromKerasModel model).

(** [converter.convert()] *)
Definition convert (converter : Converter) : M Bytes :=
  lift (tflite_convert env converter).

(** [os.path.getsize(path) / (1024 * 1024)] *)
Definition getsize_mb (path : string) : M Q :=
  n <- getsize (fs_dir_size env) path;;
  ret (size_mb n).
End LibraryCalls.


(** * convert_oemer_simple.py *)

Module Simple.
Section Script.
Variable env : Env.

Definition PACKAGES_REQUIRED : list (string * string) :=
  [("tensorflow", "2.14.0"); ("torch", "2.0+");
   ("torchvision", "0.15+"); ("oemer", "latest")].

(** The loop of [check_dependencies]. *)
Fixpoint probe (pkgs : list (string * string)) (missing : list string)
    : M (list string) :=
  match pkgs with
  | [] => ret missing
  | (package, version) :: rest =>
      match py_import env package with
      | None => probe rest missing
      | Some e =>
          if is_ImportError e
          then probe rest (missing ++ [package +:+ "==" +:+ version])
          else raise e
      end
  end.

Definition check_dependencies : M unit :=
  missing <- probe PACKAGES_REQUIRED [];;
  match missing with
  | [] => ret tt
  | _ => print (EvDepsMissing missing);;; sys_exit 1
  end.

(** Both exports use [opset_version=13] and library defaults otherwise. *)
Definition export_opts : OnnxExportOpts := MkOnnxExportOpts 13 None None.

(** Lines 181-192: the mock staff detector and its converter. *)
Definition mock_staff_converter : M Converter :=
  let staff_input := keras_Input [512; 512; 3] 1 in
  x <- call_layer (Conv2D 32 3 Same Relu) staff_input;;
  x <- call_layer (MaxPooling2D 4) x;;
  x <- call_layer (Conv2D 64 3 Same Relu) x;;
  x <- call_layer (UpSampling2D 4) x;;
  staff_output <- call_layer (Conv2D 1 1 Same Sigmoid) x;;
  let staff_model := keras_Model env staff_input staff_output in
  let converter := from_keras_model staff_model in
  let converter := set_optimizations [Optimize_DEFAULT] converter in
  let converter := set_supported_types [tf_float16] converter in
  ret converter.

(** Lines 202-213: the mock symbol recognizer and its converter. *)
Definition mock_symbol_converter : M Converter :=
  let symbol_input := keras_Input [128; 128; 3] 1 in
  x <- call_layer (Conv2D 32 3 Same Relu) symbol_input;;
  x <- call_layer (MaxPooling2D 2) x;;
  x <- call_layer (Conv2D 64 3 Same Relu) x;;
  x <- call_layer GlobalAveragePooling2D x;;
  symbol_output <- call_layer (Dense 128 Softmax) x;;
  let symbol_model := keras_Model env symbol_input symbol_output in
  let converter := from_keras_model symbol_model in
  let converter := set_optimizations [Optimize_DEFAULT] converter in
  let converter := set_supported_types [tf_float16] converter in
  ret converter.

Definition create_mock_tflite_models : M bool :=
  import_ env "tensorflow";;;
  import_ env "numpy";;;
  print EvMockStart;;;
  converter <- mock_staff_converter;;
  tflite_staff <- convert env converter;;
  open_wb_write "staff_detector.tflite" tflite_staff;;;
  size1 <- getsize_mb env "staff_detector.tflite";;
  print (EvSaved "staff_detector.tflite" size1);;;
  converter <- mock_symbol_converter;;
  tflite_symbol <- convert env converter;;
  open_wb_write "symbol_recognizer.tflite" tflite_symbol;;;
  size2 <- getsize_mb env "symbol_recognizer.tflite";;
  print (EvSaved "symbol_recognizer.tflite" size2);;;
  let total := Qplus size1 size2 in
  print (EvMockTotal total);;;
  ret true.

(** Lines 60-78, the body of the first [try]. *)
Definition load_models : M (TorchModel * TorchModel) :=
  print (EvLoading "oemer models");;;
  import_ env "oemer.models";;;
  checkpoint_path <- lift (download_pretrained_model env Staff);;
  staff_model <- lift (load_from_checkpoint env Staff checkpoint_path None);;
  let staff_model := eval staff_model in
  print (EvLoaded "staff detection model");;;
  checkpoint_path <- lift (download_pretrained_model env Clef);;
  clef_model <- lift (load_from_checkpoint env Clef checkpoint_path None);;
  let clef_model := eval clef_model in
  print (EvLoaded "symbol recognition model");;;
  ret (staff_model, clef_model).

(** Lines 121-134 and 137-150: one model from its ONNX file to its
    [.tflite] file; the value is the size in MB. *)
Definition onnx_to_tflite (onnx_path saved_model_dir tflite_path : string) : M Q :=
  onnx_model <- onnx_load env onnx_path;;
  tf_rep <- lift (onnx_tf_prepare env onnx_model);;
  export_graph env tf_rep saved_model_dir;;;
  converter <- from_saved_model env saved_model_dir;;
  let converter := set_optimizations [Optimize_DEFAULT] converter in
  let converter := set_supported_types [tf_float16] converter in
  tflite_model <- convert env converter;;
  open_wb_write tflite_path tflite_model;;;
  size <- getsize_mb env tflite_path;;
  print (EvSaved tflite_path size);;;
  ret size.

(** Lines 87-160, the body of the second [try]. *)
Definition convert_loaded (staff_model clef_model : TorchModel) : M bool :=
  print (EvConverting "ONNX");;;
  staff_input <- lift (torch_randn env [1; 3; 512; 512] None);;
  symbol_input <- lift (torch_randn env [1; 3; 128; 128] None);;
  onnx_export env staff_model staff_input "staff_detector.onnx" export_opts;;;
  print (EvCreated "staff_detector.onnx");;;
  onnx_export env clef_model symbol_input "symbol_recognizer.onnx" export_opts;;;
  print (EvCreated "symbol_recognizer.onnx");;;
  print (EvConverting "TensorFlow Lite");;;
  import_ env "onnx";;;
  import_ env "onnx_tf.backend";;;
  size1 <- onnx_to_tflite "staff_detector.onnx" "staff_detector_tf"
                          "staff_detector.tflite";;
  size2 <- onnx_to_tflite "symbol_recognizer.onnx" "symbol_recognizer_tf"
                          "symbol_recognizer.tflite";;
  let total := Qplus size1 size2 in
  print (EvTotal total);;;
  (if within_budget total
   then print (EvWithinBudget total)
   else print (EvBudgetWarning total));;;
  ret true.

Definition convert_models : M bool :=
  import_ env "tensorflow";;;
  import_ env "torch";;;
  import_ env "numpy";;;
  print EvBanner;;;
  (* the handler of the first [try] returns from the function: [inl] *)
  loaded <- try_except
              (models <- load_models;; ret (inr models))
              (fun e =>
                 print (EvImportNote (exc_msg e));;;
                 r <- create_mock_tflite_models;;
                 ret (inl r));;
  match loaded with
  | inl r => ret r
  | inr (staff_model, clef_model) =>
      try_except
        (convert_loaded staff_model clef_model)
        (fun e =>
           print (EvConversionFailed (exc_msg e));;;
           print EvFallback;;;
           create_mock_tflite_models)
  end.

Record Args := MkArgs { output : string; check_only : bool; mock : bool }.

Definition main (args : Args) : M unit :=
  try_except_SystemExit
    (check_dependencies;;; print EvDepsOk)
    (if check_only args then sys_exit 1 else print EvDepsWarning);;;
  (if check_only args then sys_exit 0 else ret tt);;;
  let output_dir := output args in
  mkdir_parents_exist_ok output_dir;;;
  chdir output_dir;;;
  success <- (if mock args then create_mock_tflite_models else convert_models);;
  (if success : bool then print EvNextSteps else ret tt);;;
  sys_exit (if success then 0%Z else 1%Z).
End Script.
End Simple.

(** * convert_oemer_to_tflite.py *)

(** Helpers for [converter.output_dir.glob("*.tflite")]. *)
Fixpoint ends_with (suffix s : string) : bool :=
  if String.eqb suffix s then true
  else match s with
       | EmptyString => false
       | String _ s' => ends_with suffix s'
       end.

Fixpoint strip_prefix (p s : string) : option string :=
  match p, s with
  | EmptyString, _ => Some s
  | String a p', String b s' => if Ascii.eqb a b then strip_prefix p' s' else None
  | String _ _, EmptyString => None
  end.

Fixpoint has_slash (s : string) : bool :=
  match s with
  | EmptyString => false
  | String c s' => orb (Ascii.eqb c "/"%char) (has_slash s')
  end.

(** The names directly inside directory [d] that match ["*.tflite"]. *)
Definition glob_tflite (d : string) (fs : gmap string Entry) : list string :=
  omap (fun kv =>
          match strip_prefix (d +:+ "/") (fst kv) with
          | Some name =>
              if negb (has_slash name) && ends_with ".tflite" name
              then Some name else None
          | None => None
          end)
       (map_to_list fs).

Module Full.
Section Script.
Variable env : Env.

(** The three guarded import blocks at the top of the module, and the
    unguarded [import numpy] before them. *)
Definition guarded_import (pkgs : list string) (what : string) : M unit :=
  fun w => match fold_right (fun pkg rest => import_ env pkg;;; rest) (ret tt) pkgs w with
           | (Raise (Exc e), w') =>
               if is_ImportError e
               then (print (EvImportError what);;; sys_exit 1) w'
               else (Raise (Exc e), w')
           | r => r
           end.

Definition module_imports : M unit :=
  import_ env "numpy";;;
  guarded_import ["tensorflow"; "tensorflow.lite.python"] "TensorFlow";;;
  guarded_import ["torch"; "torchvision"] "PyTorch";;;
  guarded_import ["oemer.models"] "oemer".

Record OemerToTFLiteConverter := MkSelf {
  output_dir : string;
  verbose : bool;
  device : Device
}.

(** [__init__] *)
Definition init (output_dir : string) (verbose : bool) : M OemerToTFLiteConverter :=
  mkdir_parents_exist_ok output_dir;;;
  ret (MkSelf output_dir verbose (if cuda_is_available env then Cuda else Cpu)).

Definition log (self : OemerToTFLiteConverter) (message : Event) : M unit :=
  if verbose self then print message else ret tt.

Definition load_oemer_staff_detection_model (self : OemerToTFLiteConverter)
    : M TorchModel :=
  try_except
    (log self (EvLoading "oemer staff detection model");;;
     checkpoint_path <- lift (download_pretrained_model env Staff);;
     model <- lift (load_from_checkpoint env Staff checkpoint_path (Some (device self)));;
     let model := eval model in
     log self (EvLoaded "Staff detection model");;;
     ret model)
    (fun e => raise (RuntimeError
                       ("Failed to load staff detection model: " +:+ exc_msg e))).

Definition load_oemer_symbol_recognition_model (self : OemerToTFLiteConverter)
    : M TorchModel :=
  try_except
    (log self (EvLoading "oemer symbol recognition model");;;
     checkpoint_path <- lift (download_pretrained_model env Clef);;
     model <- lift (load_from_checkpoint env Clef checkpoint_path (Some (device self)));;
     let model := eval model in
     log self (EvLoaded "Symbol recognition model");;;
     ret model)
    (fun e => raise (RuntimeError
                       ("Failed to load symbol recognition model: " +:+ exc_msg e))).

Definition export_opts : OnnxExportOpts :=
  MkOnnxExportOpts 13 (Some true) (Some true).

(** Lines 200-210: the quantization settings. *)
Definition apply_quantization (quantization_type : string) (converter : Converter)
    : M Converter :=
  if String.eqb quantization_type "float16" then
    let converter := set_supported_types [tf_float16] converter in
    let converter := set_optimizations [Optimize_DEFAULT] converter in
    ret converter
  else if String.eqb quantization_type "int8" then
    let converter := set_optimizations [Optimize_DEFAULT] converter in
    let converter := set_supported_ops [TFLITE_BUILTINS_INT8] converter in
    ret converter
  else if negb (String.eqb quantization_type "none") then
    raise (ValueError ("Unknown quantization type: " +:+ quantization_type))
  else ret converter.

Definition onnx_path_of (self : OemerToTFLiteConverter) (model_name : string) : string :=
  path_join (output_dir self) (model_name +:+ ".onnx").
Definition saved_model_dir_of (self : OemerToTFLiteConverter) (model_name : string) : string :=
  path_join (output_dir self) (model_name +:+ "_saved_model").
Definition output_path_of (self : OemerToTFLiteConverter) (model_name : string) : string :=
  path_join (output_dir self) (model_name +:+ ".tflite").

(** Lines 144-197 of [pytorch_to_tflite]: from the PyTorch model to a
    converter over the SavedModel written from its ONNX export.  The
    [tf.function] object of line 155 is built and never called. *)
Definition bridge (self : OemerToTFLiteConverter) (pytorch_model : TorchModel)
    (input_shape : list N) (model_name : string) : M Converter :=
  log self (EvConverting model_name);;;
  dummy_input <- lift (torch_randn env input_shape (Some (device self)));;
  log self (EvStep "Step 1/4: Tracing PyTorch model");;;
  lift (torch_jit_trace env pytorch_model dummy_input);;;
  log self (EvStep "Step 2/4: Converting to TensorFlow SavedModel");;;
  let saved_model_dir := saved_model_dir_of self model_name in
  import_ env "onnx";;;
  import_ env "onnx_tf";;;
  let onnx_model_path := onnx_path_of self model_name in
  log self (EvStep "Exporting to ONNX");;;
  onnx_export env pytorch_model dummy_input onnx_model_path export_opts;;;
  log self (EvStep "Step 3/4: Converting ONNX to TensorFlow");;;
  onnx_model <- onnx_load env onnx_model_path;;
  tf_rep <- lift (onnx_tf_prepare env onnx_model);;
  export_graph env tf_rep saved_model_dir;;;
  log self (EvStep "Step 4/4: Converting to TensorFlow Lite");;;
  from_saved_model env saved_model_dir.

(** Lines 212-235: the mobile operator set, the conversion, the artifact
    file, its size, and the removal of the two intermediate outputs. *)
Definition finish (self : OemerToTFLiteConverter) (model_name : string)
    (converter : Converter) : M (string * Q) :=
  let converter := set_supported_ops [TFLITE_BUILTINS] converter in
  let converter := set_allow_custom_ops false converter in
  tflite_model <- convert env converter;;
  let output_path := output_path_of self model_name in
  open_wb_write output_path tflite_model;;;
  file_size_mb <- getsize_mb env output_path;;
  log self (EvSaved output_path file_size_mb);;;
  os_remove (onnx_path_of self model_name);;;
  rmtree_ignore_errors (saved_model_dir_of self model_name);;;
  ret (output_path, file_size_mb).

(** The body of the [try] of [pytorch_to_tflite]. *)
Definition pytorch_to_tflite_body (self : OemerToTFLiteConverter)
    (pytorch_model : TorchModel) (input_shape : list N) (model_name : string)
    (quantization_type : string) : M (string * Q) :=
  converter <- bridge self pytorch_model input_shape model_name;;
  converter <- apply_quantization quantization_type converter;;
  finish self model_name converter.

Definition pytorch_to_tflite (self : OemerToTFLiteConverter)
    (pytorch_model : TorchModel) (input_shape : list N) (model_name : string)
    (quantization_type : string) : M (string * Q) :=
  try_except
    (pytorch_to_tflite_body self pytorch_model input_shape model_name
                            quantization_type)
    (fun e => raise (RuntimeError
                       ("Conversion failed for " +:+ model_name +:+ ": " +:+ exc_msg e))).

(** [total_size > 50] *)
Definition over_budget (total_mb : Q) : bool := negb (Qle_bool total_mb budget_mb).

Definition convert_and_validate (self : OemerToTFLiteConverter) : M bool :=
  try_except
    (log self EvBanner;;;
     staff_model <- load_oemer_staff_detection_model self;;
     symbol_model <- load_oemer_symbol_recognition_model self;;
     staff <- pytorch_to_tflite self staff_model [1; 3; 512; 512]
                                "staff_detector" "float16";;
     let staff_size := snd staff in
     symbol <- pytorch_to_tflite self symbol_model [1; 3; 128; 128]
                                 "symbol_recognizer" "float16";;
     let symbol_size := snd symbol in
     let total_size := Qplus staff_size symbol_size in
     log self (EvTotal total_size);;;
     (if over_budget total_size
      then log self (EvBudgetWarning total_size)
      else log self (EvWithinBudget total_size));;;
     log self EvNextSteps;;;
     ret (within_budget total_size))
    (fun e =>
       log self (EvConversionFailed (exc_msg e));;;
       ret false).

Record Args := MkArgs {
  output : string;
  quiet : bool;
  target_dir : option string
}.

(** [shutil.copy2(src, dest)]; a directory as [dest] receives the file
    under its own name. *)
Definition copy2 (src name dest : string) : M unit :=
  data <- read_file src;;
  fun w => match w_fs w !! resolve (w_cwd w) dest with
           | Some Dir => open_wb_write (path_join dest name) data w
           | _ => open_wb_write dest data w
           end.

Fixpoint copy_all (args : Args) (from target : string) (names : list string) : M unit :=
  match names with
  | [] => ret tt
  | name :: rest =>
      let dest := path_join target name in
      copy2 (path_join from name) name dest;;;
      (if quiet args then ret tt else print (EvCopied name dest));;;
      copy_all args from target rest
  end.

(** [if success and args.target_dir:] an empty string is falsy. *)
Definition wants_copy (success : bool) (args : Args) : option string :=
  match target_dir args with
  | Some t => if success && negb (String.eqb t "") then Some t else None
  | None => None
  end.

Definition main (args : Args) : M unit :=
  converter <- init (output args) (negb (quiet args));;
  success <- convert_and_validate converter;;
  match wants_copy success args with
  | Some target =>
      mkdir_parents_exist_ok target;;;
      names <- (fun w => (Ok (glob_tflite (resolve (w_cwd w) (output_dir converter))
                                          (w_fs w)), w));;
      copy_all args (output_dir converter) target names
  | None => ret tt
  end;;;
  sys_exit (if success then 0%Z else 1%Z).

(** Running the file as a script. *)
Definition script (args : Args) : M unit :=
  module_imports;;;
  main args.
End Script.
End Full.

(** * Concrete environments and worlds *)

(** Every library call succeeds.  The real chain yields artifacts of
    [n_staff] and [n_symbol] bytes; the family of the model travels in the
    payload of the intermediate files; a Keras model converts to 1000 bytes
    per layer. *)
Definition env_sized (n_staff n_symbol : N) : Env :=
  {| py_import := fun _ => None;
     cuda_is_available := false;
     download_pretrained_model :=
       fun f => inr (match f with Staff => "staff.ckpt" | Clef => "clef.ckpt" end);
     load_from_checkpoint := fun f p _ => inr (MkTorchModel f p true);
     torch_randn := fun s _ => inr (MkTensor s 0);
     torch_jit_trace := fun _ _ => inr tt;
     torch_onnx_export :=
       fun m _ _ => inr (MkBytes 100 (match tm_family m with Staff => 1 | Clef => 2 end));
     onnx_parse := fun b => inr (MkOnnxModel (b_payload b));
     onnx_tf_prepare := fun o => inr (MkTfRep (onnx_graph o));
     tf_rep_export_graph := fun r => inr (MkBytes 200 (tfrep_graph r));
     saved_model_parse := fun b => inr (MkSavedModel (b_payload b));
     tflite_convert :=
       fun c => match source c with
                | FromSavedModel g =>
                    inr (MkBytes (if sm_graph g =? 1 then n_staff else n_symbol)
                                 (sm_graph g))
                | FromKerasModel m =>
                    inr (MkBytes (1000 * N.of_nat (List.length (km_layers m))) 7)
                end;
     keras_initial_weights := fun _ => 0;
     fs_dir_size := 4096 |}.

Definition env_ok : Env := env_sized 10 20.


(** As [env_ok], but onnx-tf rejects the graph of the symbol model
    (an operator it does not support). *)
Definition env_symbol_bridge_fails : Env :=
  {| py_import := py_import env_ok;
     cuda_is_available := cuda_is_available env_ok;
     download_pretrained_model := download_pretrained_model env_ok;
     load_from_checkpoint := load_from_checkpoint env_ok;
     torch_randn := torch_randn env_ok;
     torch_jit_trace := torch_jit_trace env_ok;
     torch_onnx_export := torch_onnx_export env_ok;
     onnx_parse := onnx_parse env_ok;
     onnx_tf_prepare :=
       fun o => if onnx_graph o =? 2
                then inl (MkExc "NotImplementedError" "unsupported operator")
                else onnx_tf_prepare env_ok o;
     tf_rep_export_graph := tf_rep_export_graph env_ok;
     saved_model_parse := saved_model_parse env_ok;
     tflite_convert := tflite_convert env_ok;
     keras_initial_weights := keras_initial_weights env_ok;
     fs_dir_size := fs_dir_size env_ok |}.

(** As [env_ok], but the staff checkpoint cannot be downloaded. *)
Definition env_staff_checkpoint_missing : Env :=
  {| py_import := py_import env_ok;
     cuda_is_available := cuda_is_available env_ok;
     download_pretrained_model :=
       fun f => match f with
                | Staff => inl (MkExc "URLError" "checkpoint unavailable")
                | Clef => download_pretrained_model env_ok Clef
                end;
     load_from_checkpoint := load_from_checkpoint env_ok;
     torch_randn := torch_randn env_ok;
     torch_jit_trace := torch_jit_trace env_ok;
     torch_onnx_export := torch_onnx_export env_ok;
     onnx_parse := onnx_parse env_ok;
     onnx_tf_prepare := onnx_tf_prepare env_ok;
     tf_rep_export_graph := tf_rep_export_graph env_ok;
     saved_model_parse := saved_model_parse env_ok;
     tflite_convert := tflite_convert env_ok;
     keras_initial_weights := keras_initial_weights env_ok;
     fs_dir_size := fs_dir_size env_ok |}.

(** As [env_ok], but the TFLite converter fails on a SavedModel. *)
Definition env_convert_fails : Env :=
  {| py_import := py_import env_ok;
     cuda_is_available := cuda_is_available env_ok;
     download_pretrained_model := download_pretrained_model env_ok;
     load_from_checkpoint := load_from_checkpoint env_ok;
     torch_randn := torch_randn env_ok;
     torch_jit_trace := torch_jit_trace env_ok;
     torch_onnx_export := torch_onnx_export env_ok;
     onnx_parse := onnx_parse env_ok;
     onnx_tf_prepare := onnx_tf_prepare env_ok;
     tf_rep_export_graph := tf_rep_export_graph env_ok;
     saved_model_parse := saved_model_parse env_ok;
     tflite_convert :=
       fun c => match source c with
                | FromSavedModel _ => inl (MkExc "ConverterError" "conversion error")
                | FromKerasModel _ => tflite_convert env_ok c
                end;
     keras_initial_weights := keras_initial_weights env_ok;
     fs_dir_size := fs_dir_size env_ok |}.

(** An empty file system, seen from [/work]. *)
Definition w0 : World := MkWorld ∅ "/work" [].

(** [/work/out] already holds an artifact of an earlier run. *)
Definition w_prior : World :=
  MkWorld (<["/work/out/staff_detector.tflite" := File (MkBytes 999 5)]>
             (<["/work/out" := Dir]> ∅))
          "/work" [].

Definition self0 : Full.OemerToTFLiteConverter := Full.MkSelf "out" true Cpu.

Definition staff_torch : TorchModel := MkTorchModel Staff "staff.ckpt" false.


(** * Paths *)

Lemma append_cons c s t : String c s +:+ t = String c (s +:+ t).
Proof. reflexivity. Qed.

Lemma append_nil_l t : "" +:+ t = t.
Proof. reflexivity. Qed.

Lemma append_assoc (a b c : string) : (a +:+ b) +:+ c = a +:+ (b +:+ c).
Proof.
  induction a as [|x a IH]; [reflexivity|].
  rewrite !append_cons. now rewrite IH.
Qed.

Lemma starts_with_app (p a b : string) :
  starts_with (p +:+ a) (p +:+ b) = starts_with a b.
Proof.
  induction p as [|x p IH]; [reflexivity|].
  rewrite !append_cons. cbn [starts_with].
  rewrite Ascii.eqb_refl. exact IH.
Qed.

Lemma is_absolute_app (p t : string) :
  p <> "" -> is_absolute (p +:+ t) = is_absolute p.
Proof. destruct p as [|c p]; [congruence|]. intros _. reflexivity. Qed.

Lemma is_absolute_app_suffix (name sfx : string) :
  is_absolute sfx = false -> is_absolute (name +:+ sfx) = is_absolute name.
Proof.
  intros H. destruct name as [|c n]; [exact H|].
  now apply is_absolute_app.
Qed.

Lemma append_nonempty_r (p t : string) : t <> "" -> p +:+ t <> "".
Proof. destruct p; [easy|]. intros _. rewrite append_cons. discriminate. Qed.

Lemma resolve_app (cwd p t : string) :
  p <> "" -> resolve cwd (p +:+ t) = resolve cwd p +:+ t.
Proof.
  intros Hp. unfold resolve, path_join.
  rewrite (is_absolute_app p t Hp).
  destruct (is_absolute p); [reflexivity|].
  now rewrite !append_assoc.
Qed.

(** Where the files of model [name] live: the key of
    [output_dir / (name + suffix)] without its suffix. *)
Definition stem (cwd out name : string) : string :=
  if is_absolute name then name
  else if is_absolute (out +:+ "/") then out +:+ "/" +:+ name
  else cwd +:+ "/" +:+ out +:+ "/" +:+ name.

Lemma resolve_join_suffix (cwd out name sfx : string) :
  is_absolute sfx = false ->
  resolve cwd (path_join out (name +:+ sfx)) = stem cwd out name +:+ sfx.
Proof.
  intros Hs. unfold resolve, path_join at 2, stem.
  rewrite (is_absolute_app_suffix name sfx Hs).
  destruct (is_absolute name) eqn:Hn.
  - unfold path_join. now rewrite (is_absolute_app_suffix name sfx Hs), Hn.
  - unfold path_join.
    replace (out +:+ "/" +:+ name +:+ sfx) with ((out +:+ "/") +:+ name +:+ sfx)
      by now rewrite append_assoc.
    rewrite is_absolute_app by (apply append_nonempty_r; discriminate).
    destruct (is_absolute (out +:+ "/")); now rewrite !append_assoc.
Qed.

Lemma append_suffix_ne (x a b : string) : a <> b -> x +:+ a <> x +:+ b.
Proof. intros Hab H. apply Hab. exact (String.app_inj x a b H). Qed.

Lemma is_under_suffix (x d k : string) :
  is_under (x +:+ d) (x +:+ k) = starts_with (d +:+ "/") k.
Proof. unfold is_under. rewrite append_assoc. apply starts_with_app. Qed.

(** * Reasoning about computations *)

(** ** Relations kept by every step *)

Section Preserves.
Variable R : World -> World -> Prop.
Hypothesis R_refl : forall w, R w w.
Hypothesis R_trans : forall a b c, R a b -> R b c -> R a c.

Definition preserves {A} (m : M A) : Prop := forall w, R w (snd (m w)).

Lemma preserves_ret {A} (a : A) : preserves (ret a).
Proof. intros w. apply R_refl. Qed.

Lemma preserves_raise {A} (e : Exception) : preserves (@raise A e).
Proof. intros w. apply R_refl. Qed.

Lemma preserves_sys_exit {A} (c : Z) : preserves (@sys_exit A c).
Proof. intros w. apply R_refl. Qed.

Lemma preserves_lift {A} (r : Exception + A) : preserves (lift r).
Proof. destruct r; [apply preserves_raise | apply preserves_ret]. Qed.

Lemma preserves_bind {A B} (m : M A) (k : A -> M B) :
  preserves m -> (forall a, preserves (k a)) -> preserves (bind m k).
Proof.
  intros Hm Hk w. unfold bind. specialize (Hm w).
  destruct (m w) as [[a|e] w1]; cbn in *; [|exact Hm].
  eapply R_trans; [exact Hm | apply Hk].
Qed.

Lemma preserves_try_except {A} (body : M A) (handler : Exception -> M A) :
  preserves body -> (forall e, preserves (handler e)) ->
  preserves (try_except body handler).
Proof.
  intros Hb Hh w. unfold try_except. specialize (Hb w).
  destruct (body w) as [[a|[e|c]] w1]; cbn in *; try exact Hb.
  eapply R_trans; [exact Hb | apply Hh].
Qed.

Lemma preserves_try_except_SystemExit {A} (body handler : M A) :
  preserves body -> preserves handler ->
  preserves (try_except_SystemExit body handler).
Proof.
  intros Hb Hh w. unfold try_except_SystemExit. specialize (Hb w).
  destruct (body w) as [[a|[e|c]] w1]; cbn in *; try exact Hb.
  eapply R_trans; [exact Hb | apply Hh].
Qed.

Lemma preserves_if {A} (b : bool) (m1 m2 : M A) :
  preserves m1 -> preserves m2 -> preserves (if b then m1 else m2).
Proof. now destruct b. Qed.

Lemma preserves_import env pkg : preserves (import_ env pkg).
Proof.
  unfold import_. destruct (py_import env pkg);
    [apply preserves_raise | apply preserves_ret].
Qed.

Lemma preserves_call_layer l x : preserves (call_layer l x).
Proof.
  unfold call_layer. destruct (layer_output_shape l (kt_shape x));
    [apply preserves_ret | apply preserves_raise].
Qed.

Lemma preserves_read_file path : preserves (read_file path).
Proof.
  intros w. unfold read_file.
  destruct (w_fs w !! resolve (w_cwd w) path) as [[b|]|]; apply R_refl.
Qed.

Lemma preserves_getsize d path : preserves (getsize d path).
Proof.
  intros w. unfold getsize.
  destruct (w_fs w !! resolve (w_cwd w) path) as [[b|]|]; apply R_refl.
Qed.
End Preserves.

(** ** The part of the file system a computation leaves alone *)

(** [frame P w w']: same working directory, and every key outside [P]
    (which may depend on the working directory) holds what it held. *)
Definition frame (P : string -> string -> Prop) (w w' : World) : Prop :=
  w_cwd w' = w_cwd w /\
  forall k, ~ P (w_cwd w) k -> w_fs w' !! k = w_fs w !! k.

Lemma frame_refl P w : frame P w w.
Proof. now split. Qed.

Lemma frame_trans P a b c : frame P a b -> frame P b c -> frame P a c.
Proof.
  intros [Hc1 H1] [Hc2 H2]. split; [congruence|].
  intros k Hk. rewrite H2 by now rewrite Hc1. now apply H1.
Qed.

Lemma frame_print P ev : preserves (frame P) (print ev).
Proof. intros w. now split. Qed.

Lemma frame_open_wb_write (P : string -> string -> Prop) path data :
  (forall c, P c (resolve c path)) -> preserves (frame P) (open_wb_write path data).
Proof.
  intros HP w. unfold open_wb_write.
  destruct (w_fs w !! resolve (w_cwd w) path) as [[b|]|]; cbn;
    try apply frame_refl; (split; [reflexivity|]); intros k Hk; cbn;
    apply lookup_insert_ne; intros <-; apply Hk, HP.
Qed.

Lemma frame_mkdir (P : string -> string -> Prop) path :
  (forall c, P c (resolve c path)) -> preserves (frame P) (mkdir_parents_exist_ok path).
Proof.
  intros HP w. unfold mkdir_parents_exist_ok.
  destruct (w_fs w !! resolve (w_cwd w) path) as [[b|]|]; cbn;
    try apply frame_refl; (split; [reflexivity|]); intros k Hk; cbn;
    apply lookup_insert_ne; intros <-; apply Hk, HP.
Qed.

Lemma frame_os_remove (P : string -> string -> Prop) path :
  (forall c, P c (resolve c path)) -> preserves (frame P) (os_remove path).
Proof.
  intros HP w. unfold os_remove.
  destruct (w_fs w !! resolve (w_cwd w) path) as [[b|]|]; cbn;
    try apply frame_refl; (split; [reflexivity|]); intros k Hk; cbn;
    apply lookup_delete_ne; intros <-; apply Hk, HP.
Qed.

Lemma remove_tree_lookup_ne d k (fs : gmap string Entry) :
  k <> d -> is_under d k = false -> remove_tree d fs !! k = fs !! k.
Proof.
  intros Hne Hu. unfold remove_tree.
  destruct (fs !! k) as [x|] eqn:Hk.
  - apply map_lookup_filter_Some. split; [|exact Hu].
    now rewrite lookup_delete_ne.
  - apply map_lookup_filter_None. left. now rewrite lookup_delete_ne.
Qed.

Lemma remove_tree_lookup_self d (fs : gmap string Entry) : remove_tree d fs !! d = None.
Proof.
  unfold remove_tree. apply map_lookup_filter_None. left. apply lookup_delete_eq.
Qed.

Lemma remove_tree_lookup_under d k (fs : gmap string Entry) :
  is_under d k = true -> remove_tree d fs !! k = None.
Proof.
  intros Hu. unfold remove_tree. apply map_lookup_filter_None. right.
  intros x _. cbn. congruence.
Qed.

Lemma frame_rmtree (P : string -> string -> Prop) path :
  (forall c, P c (resolve c path)) ->
  (forall c k, is_under (resolve c path) k = true -> P c k) ->
  preserves (frame P) (rmtree_ignore_errors path).
Proof.
  intros HP HU w. unfold rmtree_ignore_errors.
  destruct (w_fs w !! resolve (w_cwd w) path) as [[b|]|]; cbn;
    try apply frame_refl. split; [reflexivity|]. intros k Hk. cbn.
  apply remove_tree_lookup_ne.
  - intros ->. apply Hk, HP.
  - destruct (is_under (resolve (w_cwd w) path) k) eqn:E; [|reflexivity].
    exfalso. apply Hk. now apply HU.
Qed.

(** Splits a goal [preserves R m] along the structure of [m]; [refl] and
    [trans] are the proofs that [R] is a preorder, [leaf] handles the
    primitive steps that are specific to [R]. *)
Ltac pres_with refl trans leaf :=
  repeat (intros;
    first
      [ apply (preserves_ret _ refl)
      | apply (preserves_raise _ refl)
      | apply (preserves_sys_exit _ refl)
      | apply (preserves_lift _ refl)
      | apply (preserves_import _ refl)
      | apply (preserves_call_layer _ refl)
      | apply (preserves_read_file _ refl)
      | apply (preserves_getsize _ refl)
      | apply (preserves_bind _ trans)
      | apply (preserves_try_except _ trans)
      | apply (preserves_try_except_SystemExit _ trans)
      | apply preserves_if
      | leaf ]).

Ltac frame_leaf :=
  first
    [ apply frame_print
    | apply frame_open_wb_write; intros; hnf; solve [auto 6]
    | apply frame_mkdir; intros; hnf; solve [auto 6]
    | apply frame_os_remove; intros; hnf; solve [auto 6]
    | apply frame_rmtree; intros; hnf; solve [auto 6] ].

Ltac frame_tac P :=
  pres_with (frame_refl P) (frame_trans P) frame_leaf.

Section FullFrames.
Variable env : Env.
Variable self : Full.OemerToTFLiteConverter.
Variable model_name : string.

Let onnx_path := Full.onnx_path_of self model_name.
Let saved_model_dir := Full.saved_model_dir_of self model_name.
Let output_path := Full.output_path_of self model_name.

(** The keys [bridge] may write. *)
Definition bridge_footprint (c k : string) : Prop :=
  k = resolve c onnx_path \/
  k = resolve c saved_model_dir \/
  k = resolve c (saved_model_dir +:+ "/saved_model.pb").


Lemma frame_log P ev : preserves (frame P) (Full.log self ev).
Proof. unfold Full.log. frame_tac P. Qed.

Lemma bridge_frame m shape :
  preserves (frame bridge_footprint) (Full.bridge env self m shape model_name).
Proof.
  unfold Full.bridge, onnx_export, onnx_load, export_graph, from_saved_model.
  pres_with (frame_refl bridge_footprint) (frame_trans bridge_footprint)
            ltac:(first [apply frame_log | frame_leaf]).
Qed.


(** *** The four keys of a model are distinct *)

Lemma resolve_onnx c :
  resolve c onnx_path = stem c (Full.output_dir self) model_name +:+ ".onnx".
Proof. now apply resolve_join_suffix. Qed.

Lemma resolve_output c :
  resolve c output_path = stem c (Full.output_dir self) model_name +:+ ".tflite".
Proof. now apply resolve_join_suffix. Qed.

Lemma resolve_dir c :
  resolve c saved_model_dir
  = stem c (Full.output_dir self) model_name +:+ "_saved_model".
Proof. now apply resolve_join_suffix. Qed.

Lemma saved_model_dir_nonempty : saved_model_dir <> "".
Proof.
  unfold saved_model_dir, Full.saved_model_dir_of, path_join.
  destruct (is_absolute _).
  - apply append_nonempty_r. discriminate.
  - apply append_nonempty_r, append_nonempty_r, append_nonempty_r. discriminate.
Qed.

Lemma resolve_pb c :
  resolve c (saved_model_dir +:+ "/saved_model.pb")
  = stem c (Full.output_dir self) model_name +:+ "_saved_model/saved_model.pb".
Proof.
  rewrite resolve_app by apply saved_model_dir_nonempty.
  rewrite resolve_dir. now rewrite append_assoc.
Qed.

Lemma output_not_in_bridge_footprint c :
  ~ bridge_footprint c (resolve c output_path).
Proof.
  unfold bridge_footprint. rewrite resolve_output, resolve_onnx, resolve_dir, resolve_pb.
  intros [H|[H|H]]; revert H; apply append_suffix_ne; discriminate.
Qed.

Lemma onnx_ne_output c : resolve c onnx_path <> resolve c output_path.
Proof. rewrite resolve_output, resolve_onnx. apply append_suffix_ne. discriminate. Qed.

Lemma onnx_ne_dir c : resolve c onnx_path <> resolve c saved_model_dir.
Proof. rewrite resolve_dir, resolve_onnx. apply append_suffix_ne. discriminate. Qed.

Lemma onnx_ne_pb c :
  resolve c onnx_path <> resolve c (saved_model_dir +:+ "/saved_model.pb").
Proof. rewrite resolve_pb, resolve_onnx. apply append_suffix_ne. discriminate. Qed.

Lemma dir_ne_pb c :
  resolve c saved_model_dir <> resolve c (saved_model_dir +:+ "/saved_model.pb").
Proof. rewrite resolve_pb, resolve_dir. apply append_suffix_ne. discriminate. Qed.

Lemma dir_ne_output c : resolve c saved_model_dir <> resolve c output_path.
Proof. rewrite resolve_output, resolve_dir. apply append_suffix_ne. discriminate. Qed.

Lemma output_not_under_dir c :
  is_under (resolve c saved_model_dir) (resolve c output_path) = false.
Proof. rewrite resolve_output, resolve_dir. now rewrite is_under_suffix. Qed.

Lemma onnx_not_under_dir c :
  is_under (resolve c saved_model_dir) (resolve c onnx_path) = false.
Proof. rewrite resolve_onnx, resolve_dir. now rewrite is_under_suffix. Qed.
End FullFrames.

(** ** What a step that returned has done *)

Lemma bind_Ok {A B} (m : M A) (k : A -> M B) w b w' :
  bind m k w = (Ok b, w') ->
  exists a w1, m w = (Ok a, w1) /\ k a w1 = (Ok b, w').
Proof.
  unfold bind. destruct (m w) as [[a|e] w1]; [eauto | discriminate].
Qed.

Lemma ret_Ok {A} (a b : A) w w' : ret a w = (Ok b, w') -> a = b /\ w' = w.
Proof. unfold ret. now inversion 1. Qed.

Lemma lift_Ok {A} (r : Exception + A) w a w' :
  lift r w = (Ok a, w') -> r = inr a /\ w' = w.
Proof. destruct r; cbn; [discriminate | now inversion 1]. Qed.

Lemma import_Ok env pkg w u w' :
  import_ env pkg w = (Ok u, w') -> py_import env pkg = None /\ w' = w.
Proof. unfold import_. destruct (py_import env pkg); cbn; [discriminate | now inversion 1]. Qed.

Lemma print_Ok ev w u w' :
  print ev w = (Ok u, w') ->
  w_fs w' = w_fs w /\ w_cwd w' = w_cwd w /\ w_out w' = (w_out w ++ [ev])%list.
Proof. unfold print. now inversion 1. Qed.

Lemma log_Ok self ev w u w' :
  Full.log self ev w = (Ok u, w') -> w_fs w' = w_fs w /\ w_cwd w' = w_cwd w.
Proof.
  unfold Full.log. destruct (Full.verbose self).
  - intros H. apply print_Ok in H. tauto.
  - now inversion 1.
Qed.

Lemma call_layer_Ok l x w y w' :
  call_layer l x w = (Ok y, w') ->
  w' = w /\ exists s, layer_output_shape l (kt_shape x) = Some s /\
                      y = MkKTensor (kt_input_shape x) (kt_layers x ++ [l])%list s.
Proof.
  unfold call_layer. destruct (layer_output_shape l (kt_shape x)); cbn;
    [|discriminate]. inversion 1. eauto.
Qed.

Lemma open_wb_write_Ok path data w u w' :
  open_wb_write path data w = (Ok u, w') ->
  w_fs w' = <[resolve (w_cwd w) path := File data]> (w_fs w) /\
  w_cwd w' = w_cwd w /\ w_out w' = w_out w.
Proof.
  unfold open_wb_write.
  destruct (w_fs w !! resolve (w_cwd w) path) as [[b|]|]; inversion 1; now repeat split.
Qed.

Lemma mkdir_Ok path w u w' :
  mkdir_parents_exist_ok path w = (Ok u, w') ->
  w_fs w' = <[resolve (w_cwd w) path := Dir]> (w_fs w) /\ w_cwd w' = w_cwd w.
Proof.
  unfold mkdir_parents_exist_ok.
  destruct (w_fs w !! resolve (w_cwd w) path) as [[b|]|]; inversion 1; now split.
Qed.

Lemma read_file_Ok path w b w' :
  read_file path w = (Ok b, w') ->
  w' = w /\ w_fs w !! resolve (w_cwd w) path = Some (File b).
Proof.
  unfold read_file.
  destruct (w_fs w !! resolve (w_cwd w) path) as [[b'|]|]; inversion 1; now split.
Qed.

Lemma getsize_Ok d path w n w' :
  getsize d path w = (Ok n, w') ->
  w' = w /\
  (forall b, w_fs w !! resolve (w_cwd w) path = Some (File b) -> n = b_len b).
Proof.
  unfold getsize.
  destruct (w_fs w !! resolve (w_cwd w) path) as [[b'|]|]; inversion 1;
    (split; [reflexivity|]); intros b Hb; congruence.
Qed.

Lemma os_remove_Ok path w u w' :
  os_remove path w = (Ok u, w') ->
  w_fs w' = delete (resolve (w_cwd w) path) (w_fs w) /\ w_cwd w' = w_cwd w.
Proof.
  unfold os_remove.
  destruct (w_fs w !! resolve (w_cwd w) path) as [[b|]|]; inversion 1; now split.
Qed.

(** After [rmtree] nothing is left at the path or below it, unless the
    path held a plain file. *)
Lemma rmtree_Ok path w u w' :
  rmtree_ignore_errors path w = (Ok u, w') ->
  w_cwd w' = w_cwd w /\
  (forall k, k <> resolve (w_cwd w) path ->
             is_under (resolve (w_cwd w) path) k = false ->
             w_fs w' !! k = w_fs w !! k) /\
  (w_fs w !! resolve (w_cwd w) path = Some Dir ->
   w_fs w' !! resolve (w_cwd w) path = None /\
   forall k, is_under (resolve (w_cwd w) path) k = true -> w_fs w' !! k = None).
Proof.
  unfold rmtree_ignore_errors.
  destruct (w_fs w !! resolve (w_cwd w) path) as [[b|]|] eqn:E; inversion 1;
    subst; cbn; (split; [reflexivity|]); (split; [|try discriminate]);
    try reflexivity.
  - intros k Hne Hu. now apply remove_tree_lookup_ne.
  - intros _. split; [apply remove_tree_lookup_self|].
    intros k Hk. now apply remove_tree_lookup_under.
Qed.

(** Inverts every hypothesis saying that a sequence of steps returned. *)
Ltac inv_ok :=
  repeat match goal with
    | H : bind _ _ _ = (Ok _, _) |- _ =>
        let a := fresh "a" in let w := fresh "w" in let H1 := fresh "Hstep" in
        apply bind_Ok in H; destruct H as (a & w & H1 & H); cbv beta in H
    | H : ret _ _ = (Ok _, _) |- _ => apply ret_Ok in H; destruct H; subst
    | H : lift _ _ = (Ok _, _) |- _ => apply lift_Ok in H; destruct H; subst
    | H : import_ _ _ _ = (Ok _, _) |- _ => apply import_Ok in H; destruct H; subst
    | H : print _ _ = (Ok _, _) |- _ => apply print_Ok in H; destruct H as (? & ? & ?)
    | H : Full.log _ _ _ = (Ok _, _) |- _ => apply log_Ok in H; destruct H
    | H : call_layer _ _ _ = (Ok _, _) |- _ =>
        apply call_layer_Ok in H; destruct H as (? & ? & ? & ?); subst
    | H : open_wb_write _ _ _ = (Ok _, _) |- _ =>
        apply open_wb_write_Ok in H; destruct H as (? & ? & ?)
    | H : mkdir_parents_exist_ok _ _ = (Ok _, _) |- _ => apply mkdir_Ok in H; destruct H
    | H : read_file _ _ = (Ok _, _) |- _ => apply read_file_Ok in H; destruct H; subst
    | H : getsize _ _ _ = (Ok _, _) |- _ => apply getsize_Ok in H; destruct H; subst
    | H : os_remove _ _ = (Ok _, _) |- _ => apply os_remove_Ok in H; destruct H
    | H : rmtree_ignore_errors _ _ = (Ok _, _) |- _ =>
        apply rmtree_Ok in H; destruct H as (? & ? & ?)
    end.

(** Rewrites the file system and working directory of later worlds into
    those of earlier ones. *)
Ltac to_initial :=
  repeat match goal with
    | H : w_cwd ?x = _ |- context [w_cwd ?x] => rewrite H
    | H : w_fs ?x = _ |- context [w_fs ?x] => rewrite H
    | H : w_cwd ?x = _, H' : context [w_cwd ?x] |- _ => rewrite H in H'
    end.

Section FullPost.
Variable env : Env.
Variable self : Full.OemerToTFLiteConverter.
Variable model_name : string.

(** When [bridge] returns, the ONNX file and the SavedModel directory
    exist, and the converter is a fresh one over the SavedModel. *)
Lemma bridge_post m shape w c w1 :
  Full.bridge env self m shape model_name w = (Ok c, w1) ->
  w_cwd w1 = w_cwd w /\
  (exists b, w_fs w1 !! resolve (w_cwd w) (Full.onnx_path_of self model_name)
             = Some (File b)) /\
  w_fs w1 !! resolve (w_cwd w) (Full.saved_model_dir_of self model_name) = Some Dir /\
  exists g, c = new_converter (FromSavedModel g).
Proof.
  intros H.
  unfold Full.bridge, onnx_export, onnx_load, export_graph, from_saved_model in H.
  inv_ok.
  split; [to_initial; reflexivity|].
  split; [|split; [|eauto]].
  - eexists. to_initial.
    rewrite lookup_insert_ne by (apply not_eq_sym, onnx_ne_pb).
    rewrite lookup_insert_ne by (apply not_eq_sym, onnx_ne_dir).
    apply lookup_insert_eq.
  - to_initial.
    rewrite lookup_insert_ne by (apply not_eq_sym, dir_ne_pb).
    apply lookup_insert_eq.
Qed.
End FullPost.

(** ** Running a step whose outcome is known *)

Lemma bind_run {A B} (m : M A) (k : A -> M B) w a w1 :
  m w = (Ok a, w1) -> bind m k w = k a w1.
Proof. unfold bind. now intros ->. Qed.

Lemma bind_raise_run {A B} (m : M A) (k : A -> M B) w e w1 :
  m w = (Raise e, w1) -> bind m k w = (Raise e, w1).
Proof. unfold bind. now intros ->. Qed.

Lemma try_except_run_ok {A} (body : M A) handler w a w1 :
  body w = (Ok a, w1) -> try_except body handler w = (Ok a, w1).
Proof. unfold try_except. now intros ->. Qed.

Lemma try_except_run_exc {A} (body : M A) handler w e w1 :
  body w = (Raise (Exc e), w1) -> try_except body handler w = handler e w1.
Proof. unfold try_except. now intros ->. Qed.






Section FullFinish.
Variable env : Env.
Variable self : Full.OemerToTFLiteConverter.
Variable model_name : string.

(** The converter [finish] calls [convert] on. *)
Definition mobile (c : Converter) : Converter :=
  set_allow_custom_ops false (set_supported_ops [TFLITE_BUILTINS] c).


(** When [finish] returns: the artifact file holds what the converter
    returned, the value reports its path and size, and the ONNX file and
    the SavedModel directory are gone. *)
Lemma finish_post c w1 r w' :
  w_fs w1 !! resolve (w_cwd w1) (Full.saved_model_dir_of self model_name) = Some Dir ->
  Full.finish env self model_name c w1 = (Ok r, w') ->
  w_cwd w' = w_cwd w1 /\
  exists b,
    tflite_convert env (mobile c) = inr b /\
    r = (Full.output_path_of self model_name, size_mb (b_len b)) /\
    w_fs w' !! resolve (w_cwd w1) (Full.output_path_of self model_name)
      = Some (File b) /\
    w_fs w' !! resolve (w_cwd w1) (Full.onnx_path_of self model_name) = None /\
    w_fs w' !! resolve (w_cwd w1) (Full.saved_model_dir_of self model_name) = None /\
    (forall k, is_under (resolve (w_cwd w1) (Full.saved_model_dir_of self model_name)) k
               = true -> w_fs w' !! k = None).
Proof.
  intros Hdir H. unfold Full.finish, convert, getsize_mb in H. inv_ok.
  match goal with
  | H : forall b, _ !! _ = Some (File b) -> _ = b_len b |- _ => rename H into Hsize
  end.
  match goal with
  | H : _ -> _ /\ _ |- _ => rename H into Hgone
  end.
  match goal with
  | H : forall k, k <> _ -> _ |- _ => rename H into Hkeep
  end.
  destruct Hgone as [Hself Hunder].
  { to_initial.
    rewrite lookup_delete_ne by apply onnx_ne_dir.
    rewrite lookup_insert_ne by (apply not_eq_sym, dir_ne_output). exact Hdir. }
  split; [to_initial; reflexivity|].
  eexists. split; [eassumption|].
  split.
  { f_equal. f_equal. apply Hsize. to_initial. apply lookup_insert_eq. }
  split.
  { rewrite Hkeep.
    - to_initial. rewrite lookup_delete_ne by apply onnx_ne_output.
      apply lookup_insert_eq.
    - to_initial. apply not_eq_sym, dir_ne_output.
    - to_initial. apply output_not_under_dir. }
  split.
  { rewrite Hkeep.
    - to_initial. apply lookup_delete_eq.
    - to_initial. apply onnx_ne_dir.
    - to_initial. apply onnx_not_under_dir. }
  split.
  { revert Hself. to_initial. auto. }
  { revert Hunder. to_initial. auto. }
Qed.
End FullFinish.

(** ** Computations that never call [sys.exit] *)

Definition no_exit {A} (m : M A) : Prop :=
  forall w c, fst (m w) <> Raise (SystemExit c).

Lemma no_exit_ret {A} (a : A) : no_exit (ret a).
Proof. intros w c. discriminate. Qed.

Lemma no_exit_raise {A} (e : Exception) : no_exit (@raise A e).
Proof. intros w c. discriminate. Qed.

Lemma no_exit_lift {A} (r : Exception + A) : no_exit (lift r).
Proof. destruct r; [apply no_exit_raise | apply no_exit_ret]. Qed.

Lemma no_exit_bind {A B} (m : M A) (k : A -> M B) :
  no_exit m -> (forall a, no_exit (k a)) -> no_exit (bind m k).
Proof.
  intros Hm Hk w c. unfold bind. specialize (Hm w c).
  destruct (m w) as [[a|e] w1]; cbn in *; [apply Hk |].
  intros H. apply Hm. congruence.
Qed.

Lemma no_exit_try_except {A} (body : M A) (handler : Exception -> M A) :
  no_exit body -> (forall e, no_exit (handler e)) -> no_exit (try_except body handler).
Proof.
  intros Hb Hh w c. unfold try_except. specialize (Hb w c).
  destruct (body w) as [[a|[e|c']] w1]; cbn in *; try exact Hb. apply Hh.
Qed.

Lemma no_exit_if {A} (b : bool) (m1 m2 : M A) :
  no_exit m1 -> no_exit m2 -> no_exit (if b then m1 else m2).
Proof. now destruct b. Qed.

Lemma no_exit_print ev : no_exit (print ev).
Proof. intros w c. discriminate. Qed.

Lemma no_exit_import env pkg : no_exit (import_ env pkg).
Proof.
  unfold import_. destruct (py_import env pkg); [apply no_exit_raise | apply no_exit_ret].
Qed.

Lemma no_exit_call_layer l x : no_exit (call_layer l x).
Proof.
  unfold call_layer. destruct (layer_output_shape l (kt_shape x));
    [apply no_exit_ret | apply no_exit_raise].
Qed.

Lemma no_exit_open_wb_write path data : no_exit (open_wb_write path data).
Proof.
  intros w c. unfold open_wb_write.
  destruct (w_fs w !! resolve (w_cwd w) path) as [[b|]|]; discriminate.
Qed.

Lemma no_exit_read_file path : no_exit (read_file path).
Proof.
  intros w c. unfold read_file.
  destruct (w_fs w !! resolve (w_cwd w) path) as [[b|]|]; discriminate.
Qed.

Lemma no_exit_getsize d path : no_exit (getsize d path).
Proof.
  intros w c. unfold getsize.
  destruct (w_fs w !! resolve (w_cwd w) path) as [[b|]|]; discriminate.
Qed.

Lemma no_exit_os_remove path : no_exit (os_remove path).
Proof.
  intros w c. unfold os_remove.
  destruct (w_fs w !! resolve (w_cwd w) path) as [[b|]|]; discriminate.
Qed.

Lemma no_exit_rmtree path : no_exit (rmtree_ignore_errors path).
Proof.
  intros w c. unfold rmtree_ignore_errors.
  destruct (w_fs w !! resolve (w_cwd w) path) as [[b|]|]; discriminate.
Qed.

Lemma no_exit_mkdir path : no_exit (mkdir_parents_exist_ok path).
Proof.
  intros w c. unfold mkdir_parents_exist_ok.
  destruct (w_fs w !! resolve (w_cwd w) path) as [[b|]|]; discriminate.
Qed.

Lemma no_exit_chdir path : no_exit (chdir path).
Proof.
  intros w c. unfold chdir.
  destruct (w_fs w !! resolve (w_cwd w) path) as [[b|]|]; discriminate.
Qed.

Create HintDb no_exit discriminated.
#[export] Hint Resolve no_exit_ret no_exit_raise no_exit_lift no_exit_print
  no_exit_import no_exit_call_layer no_exit_open_wb_write no_exit_read_file
  no_exit_getsize no_exit_os_remove no_exit_rmtree no_exit_mkdir no_exit_chdir
  : no_exit.

Ltac no_exit_tac :=
  repeat (intros;
    first
      [ solve [auto with no_exit]
      | apply no_exit_bind
      | apply no_exit_try_except
      | apply no_exit_if ]).

Lemma no_exit_log self ev : no_exit (Full.log self ev).
Proof. unfold Full.log. no_exit_tac. Qed.
#[export] Hint Resolve no_exit_log : no_exit.

Lemma no_exit_bridge env self m shape name :
  no_exit (Full.bridge env self m shape name).
Proof.
  unfold Full.bridge, onnx_export, onnx_load, export_graph, from_saved_model.
  no_exit_tac.
Qed.

Lemma no_exit_apply_quantization q c : no_exit (Full.apply_quantization q c).
Proof. unfold Full.apply_quantization. no_exit_tac. Qed.

Lemma no_exit_finish env self name c : no_exit (Full.finish env self name c).
Proof. unfold Full.finish, convert, getsize_mb. no_exit_tac. Qed.
#[export] Hint Resolve no_exit_bridge no_exit_apply_quantization no_exit_finish
  : no_exit.


Lemma no_exit_pytorch_to_tflite env self m shape name q :
  no_exit (Full.pytorch_to_tflite env self m shape name q).
Proof. unfold Full.pytorch_to_tflite, Full.pytorch_to_tflite_body. no_exit_tac. Qed.

Lemma no_exit_load_staff env self : no_exit (Full.load_oemer_staff_detection_model env self).
Proof. unfold Full.load_oemer_staff_detection_model. no_exit_tac. Qed.

Lemma no_exit_load_symbol env self :
  no_exit (Full.load_oemer_symbol_recognition_model env self).
Proof. unfold Full.load_oemer_symbol_recognition_model. no_exit_tac. Qed.
#[export] Hint Resolve no_exit_pytorch_to_tflite no_exit_load_staff no_exit_load_symbol
  : no_exit.

(** ** [pytorch_to_tflite] *)

Section PytorchToTflite.
Variable env : Env.
Variable self : Full.OemerToTFLiteConverter.
Variable m : TorchModel.
Variable shape : list N.
Variable name : string.



(** A returning call went through all three stages. *)
Lemma pytorch_to_tflite_Ok q w r w' :
  Full.pytorch_to_tflite env self m shape name q w = (Ok r, w') ->
  exists c w1 c',
    Full.bridge env self m shape name w = (Ok c, w1) /\
    Full.apply_quantization q c w1 = (Ok c', w1) /\
    Full.finish env self name c' w1 = (Ok r, w').
Proof.
  unfold Full.pytorch_to_tflite, try_except.
  destruct (Full.pytorch_to_tflite_body env self m shape name q w)
    as [[r0|[e'|c]] w1] eqn:Hb; cbn; try discriminate.
  inversion 1; subst. unfold Full.pytorch_to_tflite_body in Hb.
  apply bind_Ok in Hb. destruct Hb as (c & w2 & Hbr & Hb).
  apply bind_Ok in Hb. destruct Hb as (c' & w3 & Hq & Hf).
  assert (w3 = w2).
  { revert Hq. unfold Full.apply_quantization.
    repeat match goal with
           | |- context [if ?b then _ else _] => destruct b
           end; cbn; inversion 1; reflexivity. }
  subst w3. eauto 8.
Qed.


Lemma apply_quantization_unknown q c :
  q <> "float16" -> q <> "int8" -> q <> "none" ->
  Full.apply_quantization q c
  = raise (ValueError ("Unknown quantization type: " +:+ q)).
Proof.
  intros H1 H2 H3. unfold Full.apply_quantization.
  apply String.eqb_neq in H1, H2, H3. now rewrite H1, H2, H3.
Qed.
End PytorchToTflite.

(** * Properties of the conversion step *)

(** C10. For every [quantization_type] other than ["float16"], ["int8"] and
    ["none"], [pytorch_to_tflite] raises a [RuntimeError] naming the model;
    when the stages before the quantization settings returned, its message
    is that of the [ValueError] for the unknown type; and the artifact path
    holds after the call what it held before (no artifact is written, no
    default policy is applied). *)
Theorem unknown_quantization_type_raises
    (env : Env) (self : Full.OemerToTFLiteConverter) (m : TorchModel)
    (shape : list N) (name q : string) (w : World) :
  q <> "float16" -> q <> "int8" -> q <> "none" ->
  let r := Full.pytorch_to_tflite env self m shape name q w in
  (exists msg,
      fst r = Raise (Exc (RuntimeError
                            ("Conversion failed for " +:+ name +:+ ": " +:+ msg))) /\
      ((exists c w1, Full.bridge env self m shape name w = (Ok c, w1)) ->
       msg = "Unknown quantization type: " +:+ q)) /\
  w_cwd (snd r) = w_cwd w /\
  w_fs (snd r) !! resolve (w_cwd w) (Full.output_path_of self name)
  = w_fs w !! resolve (w_cwd w) (Full.output_path_of self name).
Proof.
  intros H1 H2 H3 r.
  pose proof (bridge_frame env self name m shape w) as [Hcwd Hfr].
  pose proof (no_exit_bridge env self m shape name w) as Hne.
  specialize (Hfr _ (output_not_in_bridge_footprint self name (w_cwd w))).
  destruct (Full.bridge env self m shape name w) as [[c|[e|code]] w1] eqn:Hb;
    cbn [fst snd] in *.
  - assert (Hr : r = (Raise (Exc (RuntimeError
                        ("Conversion failed for " +:+ name +:+ ": " +:+
                         "Unknown quantization type: " +:+ q))), w1)).
    { subst r. unfold Full.pytorch_to_tflite, try_except, Full.pytorch_to_tflite_body.
      rewrite (bind_run _ _ _ _ _ Hb), (apply_quantization_unknown q c H1 H2 H3).
      reflexivity. }
    rewrite Hr. cbn [fst snd]. split; [|now split].
    eexists. split; [reflexivity|]. intros _. reflexivity.
  - assert (Hr : r = (Raise (Exc (RuntimeError
                        ("Conversion failed for " +:+ name +:+ ": " +:+ exc_msg e))),
                      w1)).
    { subst r. unfold Full.pytorch_to_tflite, try_except, Full.pytorch_to_tflite_body.
      rewrite (bind_raise_run _ _ _ _ _ Hb). reflexivity. }
    rewrite Hr. cbn [fst snd]. split; [|now split].
    exists (exc_msg e). split; [reflexivity|].
    intros (c & w2 & Hc). discriminate.
  - now destruct (Hne code).
Qed.

Lemma unknown_quantization_type_raises_witness :
  let r := Full.pytorch_to_tflite env_ok self0 staff_torch [1; 3; 512; 512]
                                  "staff_detector" "int4" w_prior in
  fst r = Raise (Exc (RuntimeError
            "Conversion failed for staff_detector: Unknown quantization type: int4")) /\
  w_fs (snd r) !! "/work/out/staff_detector.tflite" = Some (File (MkBytes 999 5)).
Proof.
  pose proof (unknown_quantization_type_raises env_ok self0 staff_torch
                [1; 3; 512; 512] "staff_detector" "int4" w_prior
                ltac:(discriminate) ltac:(discriminate) ltac:(discriminate))
    as [[msg [Hr Hmsg]] [_ Hfs]].
  cbv zeta. split.
  - rewrite Hr, Hmsg; [reflexivity|].
    eexists _, _. vm_compute. reflexivity.
  - etransitivity; [exact Hfs|]. vm_compute. reflexivity.
Defined.








(** * The simplified script *)

(** ** It removes nothing *)

Definition grows (w w' : World) : Prop :=
  forall k, is_Some (w_fs w !! k) -> is_Some (w_fs w' !! k).

Lemma grows_refl w : grows w w.
Proof. intros k H. exact H. Qed.

Lemma grows_trans a b c : grows a b -> grows b c -> grows a c.
Proof. intros H1 H2 k H. auto. Qed.

Lemma grows_print ev : preserves grows (print ev).
Proof. intros w k H. exact H. Qed.

Lemma grows_open_wb_write path data : preserves grows (open_wb_write path data).
Proof.
  intros w. unfold open_wb_write.
  destruct (w_fs w !! resolve (w_cwd w) path) as [[b|]|]; cbn;
    try apply grows_refl; intros k H; cbn;
    (destruct (decide (resolve (w_cwd w) path = k)) as [->|Hne];
     [rewrite lookup_insert_eq; eauto | now rewrite lookup_insert_ne]).
Qed.

Lemma grows_mkdir path : preserves grows (mkdir_parents_exist_ok path).
Proof.
  intros w. unfold mkdir_parents_exist_ok.
  destruct (w_fs w !! resolve (w_cwd w) path) as [[b|]|]; cbn;
    try apply grows_refl; intros k H; cbn;
    (destruct (decide (resolve (w_cwd w) path = k)) as [->|Hne];
     [rewrite lookup_insert_eq; eauto | now rewrite lookup_insert_ne]).
Qed.

Ltac grows_tac :=
  pres_with grows_refl grows_trans
            ltac:(first [apply grows_print | apply grows_open_wb_write
                        | apply grows_mkdir]).

Lemma grows_create_mock env : preserves grows (Simple.create_mock_tflite_models env).
Proof.
  unfold Simple.create_mock_tflite_models, Simple.mock_staff_converter,
    Simple.mock_symbol_converter, convert, getsize_mb.
  grows_tac.
Qed.

Lemma grows_load_models env : preserves grows (Simple.load_models env).
Proof. unfold Simple.load_models. grows_tac. Qed.

Lemma grows_convert_loaded env s c : preserves grows (Simple.convert_loaded env s c).
Proof.
  unfold Simple.convert_loaded, Simple.onnx_to_tflite, onnx_export, onnx_load,
    export_graph, from_saved_model, convert, getsize_mb.
  grows_tac.
Qed.

Lemma grows_convert_models env : preserves grows (Simple.convert_models env).
Proof.
  unfold Simple.convert_models.
  pres_with grows_refl grows_trans
            ltac:(first [apply grows_print | apply grows_open_wb_write
                        | apply grows_mkdir
                        | match goal with
                          | |- preserves _ (match ?x with _ => _ end) => destruct x
                          end ]).
Qed.

(** ** It prints the mock banner only in the mock generator *)

(** No mock banner was printed between [w] and [w']. *)
Definition no_mock_banner (w w' : World) : Prop :=
  EvMockStart ∈ w_out w' -> EvMockStart ∈ w_out w.

Lemma no_mock_banner_refl w : no_mock_banner w w.
Proof. intros H. exact H. Qed.

Lemma no_mock_banner_trans a b c :
  no_mock_banner a b -> no_mock_banner b c -> no_mock_banner a c.
Proof. unfold no_mock_banner. auto. Qed.

Lemma no_mock_banner_print ev : ev <> EvMockStart -> preserves no_mock_banner (print ev).
Proof.
  intros Hne w. unfold no_mock_banner. cbn.
  rewrite elem_of_app, list_elem_of_singleton. intros [H|H]; [exact H | congruence].
Qed.

Lemma no_mock_banner_same_out {A} (m : M A) :
  (forall w, w_out (snd (m w)) = w_out w) -> preserves no_mock_banner m.
Proof. intros H w. unfold no_mock_banner. now rewrite H. Qed.

Lemma out_open_wb_write path data w : w_out (snd (open_wb_write path data w)) = w_out w.
Proof.
  unfold open_wb_write.
  now destruct (w_fs w !! resolve (w_cwd w) path) as [[b|]|].
Qed.

Lemma out_mkdir path w : w_out (snd (mkdir_parents_exist_ok path w)) = w_out w.
Proof.
  unfold mkdir_parents_exist_ok.
  now destruct (w_fs w !! resolve (w_cwd w) path) as [[b|]|].
Qed.

Lemma out_os_remove path w : w_out (snd (os_remove path w)) = w_out w.
Proof.
  unfold os_remove.
  now destruct (w_fs w !! resolve (w_cwd w) path) as [[b|]|].
Qed.

Lemma out_rmtree path w : w_out (snd (rmtree_ignore_errors path w)) = w_out w.
Proof.
  unfold rmtree_ignore_errors.
  now destruct (w_fs w !! resolve (w_cwd w) path) as [[b|]|].
Qed.

Ltac no_mock_leaf :=
  first
    [ apply no_mock_banner_print; discriminate
    | apply no_mock_banner_same_out; apply out_open_wb_write
    | apply no_mock_banner_same_out; apply out_mkdir
    | apply no_mock_banner_same_out; apply out_os_remove
    | apply no_mock_banner_same_out; apply out_rmtree ].

Ltac no_mock_tac :=
  pres_with no_mock_banner_refl no_mock_banner_trans no_mock_leaf.

Lemma no_mock_banner_load_models env : preserves no_mock_banner (Simple.load_models env).
Proof. unfold Simple.load_models. no_mock_tac. Qed.

Lemma no_mock_banner_convert_loaded env s c :
  preserves no_mock_banner (Simple.convert_loaded env s c).
Proof.
  unfold Simple.convert_loaded, Simple.onnx_to_tflite, onnx_export, onnx_load,
    export_graph, from_saved_model, convert, getsize_mb.
  no_mock_tac.
Qed.

Lemma no_mock_banner_full env self :
  preserves no_mock_banner (Full.convert_and_validate env self).
Proof.
  unfold Full.convert_and_validate, Full.load_oemer_staff_detection_model,
    Full.load_oemer_symbol_recognition_model, Full.pytorch_to_tflite,
    Full.pytorch_to_tflite_body, Full.bridge, Full.apply_quantization, Full.finish,
    Full.log, onnx_export, onnx_load, export_graph, from_saved_model, convert,
    getsize_mb.
  no_mock_tac.
Qed.

(** ** The mock generator *)

Definition staff_mock_layers : list Layer :=
  [Conv2D 32 3 Same Relu; MaxPooling2D 4; Conv2D 64 3 Same Relu;
   UpSampling2D 4; Conv2D 1 1 Same Sigmoid].

Definition symbol_mock_layers : list Layer :=
  [Conv2D 32 3 Same Relu; MaxPooling2D 2; Conv2D 64 3 Same Relu;
   GlobalAveragePooling2D; Dense 128 Softmax].

Definition staff_mock_model (env : Env) : KerasModel :=
  MkKerasModel [1; 512; 512; 3] staff_mock_layers [1; 512; 512; 1]
               (keras_initial_weights env staff_mock_layers).

Definition symbol_mock_model (env : Env) : KerasModel :=
  MkKerasModel [1; 128; 128; 3] symbol_mock_layers [1; 128]
               (keras_initial_weights env symbol_mock_layers).

(** A converter with the ["float16"] settings of both scripts. *)
Definition float16_converter (src : GraphSource) : Converter :=
  MkConverter src [Optimize_DEFAULT] [tf_float16] [TFLITE_BUILTINS] false.

Lemma mock_staff_converter_eq env :
  Simple.mock_staff_converter env
  = ret (float16_converter (FromKerasModel (staff_mock_model env))).
Proof. reflexivity. Qed.

Lemma mock_symbol_converter_eq env :
  Simple.mock_symbol_converter env
  = ret (float16_converter (FromKerasModel (symbol_mock_model env))).
Proof. reflexivity. Qed.

Lemma resolve_relative c n : is_absolute n = false -> resolve c n = c +:+ "/" +:+ n.
Proof. unfold resolve, path_join. now intros ->. Qed.

Lemma staff_ne_symbol_artifact c :
  resolve c "staff_detector.tflite" <> resolve c "symbol_recognizer.tflite".
Proof.
  rewrite !resolve_relative by reflexivity. apply append_suffix_ne. discriminate.
Qed.

(** When the mock generator returns, it returns [True], it has printed its
    banner, and both artifact files hold what the converter made of the
    two mock networks. *)
Lemma create_mock_Ok env w r w' :
  Simple.create_mock_tflite_models env w = (Ok r, w') ->
  r = true /\ w_cwd w' = w_cwd w /\ EvMockStart ∈ w_out w' /\
  exists b1 b2,
    tflite_convert env (float16_converter (FromKerasModel (staff_mock_model env)))
      = inr b1 /\
    tflite_convert env (float16_converter (FromKerasModel (symbol_mock_model env)))
      = inr b2 /\
    w_fs w' !! resolve (w_cwd w) "staff_detector.tflite" = Some (File b1) /\
    w_fs w' !! resolve (w_cwd w) "symbol_recognizer.tflite" = Some (File b2).
Proof.
  intros H. unfold Simple.create_mock_tflite_models in H.
  rewrite mock_staff_converter_eq, mock_symbol_converter_eq in H.
  unfold convert, getsize_mb in H. inv_ok.
  split; [reflexivity|]. split; [to_initial; reflexivity|]. split.
  { repeat match goal with
           | H : w_out ?x = _ |- context [w_out ?x] => rewrite H
           end.
    rewrite !elem_of_app, list_elem_of_singleton. tauto. }
  do 2 eexists. split; [eassumption|]. split; [eassumption|]. split.
  - to_initial.
    rewrite lookup_insert_ne by (apply not_eq_sym, staff_ne_symbol_artifact).
    apply lookup_insert_eq.
  - to_initial. apply lookup_insert_eq.
Qed.

Lemma no_exit_create_mock env : no_exit (Simple.create_mock_tflite_models env).
Proof.
  unfold Simple.create_mock_tflite_models, Simple.mock_staff_converter,
    Simple.mock_symbol_converter, convert, getsize_mb.
  no_exit_tac.
Qed.

Lemma no_exit_load_models env : no_exit (Simple.load_models env).
Proof. unfold Simple.load_models. no_exit_tac. Qed.

Lemma no_exit_convert_loaded env s c : no_exit (Simple.convert_loaded env s c).
Proof.
  unfold Simple.convert_loaded, Simple.onnx_to_tflite, onnx_export, onnx_load,
    export_graph, from_saved_model, convert, getsize_mb.
  no_exit_tac.
Qed.
#[export] Hint Resolve no_exit_create_mock no_exit_load_models no_exit_convert_loaded
  : no_exit.

Lemma no_exit_convert_models env : no_exit (Simple.convert_models env).
Proof.
  unfold Simple.convert_models.
  repeat (intros;
    first [ solve [auto with no_exit]
          | apply no_exit_bind
          | apply no_exit_try_except
          | match goal with
            | |- no_exit (match ?x with _ => _ end) => destruct x
            end ]).
Qed.

(** ** [convert_models] *)

(** The world in which [convert_models] enters its first [try]. *)
Definition after_banner (w : World) : World :=
  MkWorld (w_fs w) (w_cwd w) (w_out w ++ [EvBanner]).

(** The real-model chain of [convert_models]: the bodies of its two
    [try] blocks, one after the other. *)
Definition real_chain (env : Env) : M bool :=
  models <- Simple.load_models env;;
  Simple.convert_loaded env (fst models) (snd models).

Definition imports_ok (env : Env) : Prop :=
  py_import env "tensorflow" = None /\
  py_import env "torch" = None /\
  py_import env "numpy" = None.

Lemma convert_loaded_Ok env s c w r w' :
  Simple.convert_loaded env s c w = (Ok r, w') -> r = true.
Proof.
  intros H. unfold Simple.convert_loaded in H. inv_ok.
  match goal with
  | H : (if ?b then _ else _) _ = (Ok _, _) |- _ => clear H
  end.
  reflexivity.
Qed.

(** The three ways through [convert_models] once its imports succeeded. *)
Lemma convert_models_cases env w :
  imports_ok env ->
  match real_chain env (after_banner w) with
  | (Ok b, wr) =>
      Simple.convert_models env w = (Ok true, wr)
  | (Raise (Exc e), wr) =>
      exists wr',
        w_fs wr' = w_fs wr /\ w_cwd wr' = w_cwd wr /\
        (EvMockStart ∈ w_out wr' -> EvMockStart ∈ w_out wr) /\
        Simple.convert_models env w = Simple.create_mock_tflite_models env wr'
  | (Raise (SystemExit _), _) => False
  end.
Proof.
  intros (Htf & Htorch & Hnp).
  pose proof (no_exit_bind _ _ (no_exit_load_models env)
                (fun models => no_exit_convert_loaded env (fst models) (snd models))
                (after_banner w)) as Hne.
  fold (real_chain env) in Hne.
  assert (Hrun : forall k : M bool,
             (import_ env "tensorflow";;; import_ env "torch";;;
              import_ env "numpy";;; print EvBanner;;; k) w = k (after_banner w)).
  { intros k. unfold import_. rewrite Htf, Htorch, Hnp. reflexivity. }
  unfold Simple.convert_models. rewrite Hrun. clear Hrun.
  unfold real_chain in *.
  destruct (Simple.load_models env (after_banner w)) as [[[s c]|[e|code]] w1] eqn:Hl.
  - rewrite (bind_run _ _ _ _ _ Hl) in *. cbn [fst snd] in *.
    erewrite bind_run.
    2:{ apply try_except_run_ok. rewrite (bind_run _ _ _ _ _ Hl). reflexivity. }
    cbv beta iota.
    destruct (Simple.convert_loaded env s c w1) as [[b|[e|code]] w2] eqn:Hc.
    + rewrite (try_except_run_ok _ _ _ _ _ Hc).
      now rewrite (convert_loaded_Ok _ _ _ _ _ _ Hc).
    + rewrite (try_except_run_exc _ _ _ _ _ Hc).
      eexists (MkWorld (w_fs w2) (w_cwd w2)
                       ((w_out w2 ++ [EvConversionFailed (exc_msg e)]) ++ [EvFallback])).
      cbn [w_fs w_cwd w_out]. split; [reflexivity|]. split; [reflexivity|].
      split; [|reflexivity].
      rewrite !elem_of_app, !list_elem_of_singleton.
      intros [[H|H]|H]; [exact H | discriminate | discriminate].
    + now destruct (Hne code).
  - rewrite (bind_raise_run _ _ _ _ _ Hl) in *.
    eexists (MkWorld (w_fs w1) (w_cwd w1) (w_out w1 ++ [EvImportNote (exc_msg e)])).
    cbn [w_fs w_cwd w_out]. split; [reflexivity|]. split; [reflexivity|]. split.
    { rewrite elem_of_app, list_elem_of_singleton.
      intros [H|H]; [exact H | discriminate]. }
    unfold bind at 1.
    erewrite try_except_run_exc by (rewrite (bind_raise_run _ _ _ _ _ Hl); reflexivity).
    unfold bind, print.
    destruct (Simple.create_mock_tflite_models env _) as [[r|x] wm]; reflexivity.
  - rewrite (bind_raise_run _ _ _ _ _ Hl) in *. now destruct (Hne code).
Qed.

(** ** Printed lines stay printed *)

Definition out_grows (w w' : World) : Prop :=
  forall ev, ev ∈ w_out w -> ev ∈ w_out w'.

Lemma out_grows_refl w : out_grows w w.
Proof. intros ev H. exact H. Qed.

Lemma out_grows_trans a b c : out_grows a b -> out_grows b c -> out_grows a c.
Proof. unfold out_grows. auto. Qed.

Lemma out_grows_print ev : preserves out_grows (print ev).
Proof. intros w x H. cbn. rewrite elem_of_app. now left. Qed.

Lemma out_grows_same_out {A} (m : M A) :
  (forall w, w_out (snd (m w)) = w_out w) -> preserves out_grows m.
Proof. intros H w ev. now rewrite H. Qed.

Ltac out_grows_tac :=
  pres_with out_grows_refl out_grows_trans
            ltac:(first [ apply out_grows_print
                        | apply out_grows_same_out; apply out_open_wb_write
                        | apply out_grows_same_out; apply out_mkdir ]).

(** Once its two imports succeed, the mock generator prints its banner,
    whatever happens afterwards. *)
Lemma create_mock_prints_banner env w :
  py_import env "tensorflow" = None -> py_import env "numpy" = None ->
  EvMockStart ∈ w_out (snd (Simple.create_mock_tflite_models env w)).
Proof.
  intros Htf Hnp.
  assert (Hrun : forall k : M bool,
             (import_ env "tensorflow";;; import_ env "numpy";;;
              print EvMockStart;;; k) w
             = k (MkWorld (w_fs w) (w_cwd w) (w_out w ++ [EvMockStart]))).
  { intros k. unfold import_. rewrite Htf, Hnp. reflexivity. }
  unfold Simple.create_mock_tflite_models. rewrite Hrun.
  match goal with
  | |- _ ∈ w_out (snd (?k ?w1)) =>
      assert (Hg : preserves out_grows k)
  end.
  { unfold Simple.mock_staff_converter, Simple.mock_symbol_converter, convert,
      getsize_mb.
    out_grows_tac. }
  apply Hg. cbn. rewrite elem_of_app, list_elem_of_singleton. now right.
Qed.

Lemma no_mock_banner_real_chain env : preserves no_mock_banner (real_chain env).
Proof.
  unfold real_chain.
  apply (preserves_bind _ no_mock_banner_trans).
  - apply no_mock_banner_load_models.
  - intros models. apply no_mock_banner_convert_loaded.
Qed.

Lemma convert_models_Ok env w b w' :
  Simple.convert_models env w = (Ok b, w') -> b = true.
Proof.
  intros H.
  assert (Hi : imports_ok env).
  { unfold Simple.convert_models in H. inv_ok. now repeat split. }
  pose proof (convert_models_cases env w Hi) as Hc.
  destruct (real_chain env (after_banner w)) as [[b0|[e|code]] wr].
  - congruence.
  - destruct Hc as (wr' & _ & _ & _ & Heq). rewrite Heq in H.
    now apply create_mock_Ok in H.
  - contradiction.
Qed.

(** ** Exit codes *)

(** [sys.exit] is called with codes in [S] only. *)
Definition exits_only (S : Z -> Prop) {A} (m : M A) : Prop :=
  forall w c, fst (m w) = Raise (SystemExit c) -> S c.

(** The computation always ends by raising. *)
Definition never_returns {A} (m : M A) : Prop :=
  forall w a, fst (m w) <> Ok a.

Lemma no_exit_exits_only S {A} (m : M A) : no_exit m -> exits_only S m.
Proof. intros H w c Hc. now destruct (H w c). Qed.

Lemma exits_only_bind S {A B} (m : M A) (k : A -> M B) :
  exits_only S m ->
  (forall w a w1, m w = (Ok a, w1) -> exits_only S (k a)) ->
  exits_only S (bind m k).
Proof.
  intros Hm Hk w c. unfold bind. specialize (Hm w c). specialize (Hk w).
  destruct (m w) as [[a|e] w1]; cbn [fst] in *.
  - now apply (Hk a w1).
  - intros H. apply Hm. congruence.
Qed.

Lemma never_returns_bind {A B} (m : M A) (k : A -> M B) :
  (forall a, never_returns (k a)) -> never_returns (bind m k).
Proof.
  intros Hk w b. unfold bind.
  destruct (m w) as [[a|e] w1]; [apply Hk | discriminate].
Qed.

Lemma no_exit_probe env pkgs missing : no_exit (Simple.probe env pkgs missing).
Proof.
  revert missing. induction pkgs as [|[p v] rest IH]; intros missing; cbn [Simple.probe].
  - apply no_exit_ret.
  - destruct (py_import env p) as [e|]; [|apply IH].
    destruct (is_ImportError e); [apply IH | apply no_exit_raise].
Qed.

Lemma preserves_probe (R : World -> World -> Prop) (R_refl : forall w, R w w)
    env pkgs missing :
  preserves R (Simple.probe env pkgs missing).
Proof.
  revert missing. induction pkgs as [|[p v] rest IH]; intros missing; cbn [Simple.probe].
  - now apply preserves_ret.
  - destruct (py_import env p) as [e|]; [|apply IH].
    destruct (is_ImportError e); [apply IH | now apply preserves_raise].
Qed.

(** The dependency check of [main], with its [except SystemExit]. *)
Definition main_check (env : Env) (args : Simple.Args) : M unit :=
  try_except_SystemExit
    (Simple.check_dependencies env;;; print EvDepsOk)
    (if Simple.check_only args then sys_exit 1 else print EvDepsWarning).

(** What [main] does once the output directory is current. *)
Definition main_convert (env : Env) (args : Simple.Args) : M unit :=
  success <- (if Simple.mock args then Simple.create_mock_tflite_models env
              else Simple.convert_models env);;
  (if success : bool then print EvNextSteps else ret tt);;;
  sys_exit (if success then 0%Z else 1%Z).

Lemma simple_main_eq env args :
  Simple.main env args
  = (main_check env args;;;
     (if Simple.check_only args then sys_exit 0 else ret tt);;;
     mkdir_parents_exist_ok (Simple.output args);;;
     chdir (Simple.output args);;;
     main_convert env args).
Proof. reflexivity. Qed.

Lemma main_check_exits env args :
  exits_only (fun c => c = 1%Z /\ Simple.check_only args = true) (main_check env args).
Proof.
  intros w c. unfold main_check, try_except_SystemExit.
  destruct ((Simple.check_dependencies env;;; print EvDepsOk) w) as [[u|[e|c']] w1];
    cbn [fst]; try discriminate.
  destruct (Simple.check_only args); cbn; [|discriminate].
  intros H. injection H as <-. now split.
Qed.

Lemma main_check_frame env args :
  preserves (frame (fun _ _ => False)) (main_check env args).
Proof.
  unfold main_check, Simple.check_dependencies.
  pres_with (frame_refl (fun _ _ : string => False))
            (frame_trans (fun _ _ : string => False))
            ltac:(first [ apply frame_print
                        | apply preserves_probe; apply frame_refl
                        | match goal with
                          | |- preserves _ (match ?x with _ => _ end) => destruct x
                          end ]).
Qed.

Lemma conversion_returns_true env args w b w' :
  (if Simple.mock args then Simple.create_mock_tflite_models env
   else Simple.convert_models env) w = (Ok b, w') -> b = true.
Proof.
  destruct (Simple.mock args); intros H.
  - now apply create_mock_Ok in H.
  - now apply convert_models_Ok in H.
Qed.

Lemma no_exit_conversion env args :
  no_exit (if Simple.mock args then Simple.create_mock_tflite_models env
           else Simple.convert_models env).
Proof. destruct (Simple.mock args); [apply no_exit_create_mock | apply no_exit_convert_models]. Qed.

Lemma main_convert_exits env args : exits_only (fun c => c = 0%Z) (main_convert env args).
Proof.
  unfold main_convert. apply exits_only_bind.
  - apply no_exit_exits_only, no_exit_conversion.
  - intros w b w1 Hb. rewrite (conversion_returns_true _ _ _ _ _ Hb).
    intros w2 c. cbn. now inversion 1.
Qed.

(** [main] never returns normally, and the only exit codes are 0 and, in
    check-only mode, 1. *)
Lemma simple_main_exits env args :
  never_returns (Simple.main env args) /\
  exits_only (fun c => c = 0%Z \/ (c = 1%Z /\ Simple.check_only args = true))
             (Simple.main env args).
Proof.
  rewrite simple_main_eq. split.
  - repeat (apply never_returns_bind; intros).
    unfold main_convert. repeat (apply never_returns_bind; intros).
    intros w x. discriminate.
  - apply exits_only_bind.
    { intros w c Hc. right. now apply (main_check_exits env args w c). }
    intros _ _ _ _. apply exits_only_bind.
    { destruct (Simple.check_only args).
      - intros w c. cbn. inversion 1. now left.
      - apply no_exit_exits_only, no_exit_ret. }
    intros _ _ _ _. apply exits_only_bind.
    { apply no_exit_exits_only, no_exit_mkdir. }
    intros _ _ _ _. apply exits_only_bind.
    { apply no_exit_exits_only, no_exit_chdir. }
    intros _ _ _ _ w c Hc. left. now apply (main_convert_exits env args w c).
Qed.

(** [convert_and_validate] catches every exception: it always returns. *)
Lemma convert_and_validate_total env self w :
  exists verdict, fst (Full.convert_and_validate env self w) = Ok verdict.
Proof.
  unfold Full.convert_and_validate.
  match goal with
  | |- context [try_except ?body ?h] =>
      assert (Hne : no_exit body) by no_exit_tac;
      specialize (Hne w); unfold try_except;
      destruct (body w) as [[v|[x|code]] w2] eqn:Hb
  end.
  - eauto.
  - unfold bind, Full.log. destruct (Full.verbose self); cbn; eauto.
  - now destruct (Hne code).
Qed.

(** * Properties of the simplified script *)

(** C9. In the simplified script both conversion entry points return
    [True] whenever they return; [main] never returns normally, and once
    the conversion function has returned it exits with code 0: the only
    [sys.exit(1)] that can be reached is the one of check-only mode, before
    any conversion. *)
Theorem simple_failure_exit_unreachable (env : Env) (args : Simple.Args) (w : World) :
  match fst (Simple.create_mock_tflite_models env w) with
  | Ok b => b = true
  | Raise _ => True
  end /\
  match fst (Simple.convert_models env w) with
  | Ok b => b = true
  | Raise _ => True
  end /\
  match (if Simple.mock args then Simple.create_mock_tflite_models env
         else Simple.convert_models env) w with
  | (Ok _, _) => fst (main_convert env args w) = Raise (SystemExit 0)
  | (Raise _, _) => True
  end /\
  match fst (Simple.main env args w) with
  | Ok _ => False
  | Raise (SystemExit c) => c = 0%Z \/ (c = 1%Z /\ Simple.check_only args = true)
  | Raise (Exc _) => True
  end.
Proof.
  split; [|split; [|split]].
  - destruct (Simple.create_mock_tflite_models env w) as [[b|e] w'] eqn:H; [|exact I].
    now apply create_mock_Ok in H.
  - destruct (Simple.convert_models env w) as [[b|e] w'] eqn:H; [|exact I].
    now apply convert_models_Ok in H.
  - destruct ((if Simple.mock args then Simple.create_mock_tflite_models env
               else Simple.convert_models env) w) as [[b|e] w'] eqn:H; [|exact I].
    unfold main_convert. rewrite (bind_run _ _ _ _ _ H).
    rewrite (conversion_returns_true _ _ _ _ _ H). reflexivity.
  - destruct (simple_main_exits env args) as [Hn He].
    specialize (Hn w). specialize (He w).
    destruct (fst (Simple.main env args w)) as [u|[e|c]].
    + now apply (Hn u).
    + exact I.
    + now apply He.
Qed.

(** A mock-only run does reach its final [sys.exit], with code 0. *)
Example simple_main_mock_exits_0 :
  fst (Simple.main env_ok (Simple.MkArgs "out" false true) w0) = Raise (SystemExit 0).
Proof. vm_compute. reflexivity. Qed.

(** C2, as amended.  In the simplified script the fallback is decided per
    run, not per job.  Once the imports of [convert_models] succeeded and
    with no mock banner printed before: the mock generator runs exactly
    when the real-model chain (loading both models, then converting both)
    raises; when the chain returns, [convert_models] returns [True] in the
    very world the chain left, with the real artifacts; when the chain
    raises and the mock generator then returns, both artifact files hold
    the conversions of the mock networks.  The full script never runs the
    mock generator and always returns a verdict. *)
Theorem fallback_is_per_run (env : Env) (w : World) :
  imports_ok env ->
  EvMockStart ∉ w_out w ->
  let r := Simple.convert_models env w in
  (EvMockStart ∈ w_out (snd r) <->
   exists e wr, real_chain env (after_banner w) = (Raise (Exc e), wr)) /\
  (forall b wr, real_chain env (after_banner w) = (Ok b, wr) -> r = (Ok true, wr)) /\
  (forall e wr b,
      real_chain env (after_banner w) = (Raise (Exc e), wr) -> fst r = Ok b ->
      exists b1 b2,
        tflite_convert env (float16_converter (FromKerasModel (staff_mock_model env)))
          = inr b1 /\
        tflite_convert env (float16_converter (FromKerasModel (symbol_mock_model env)))
          = inr b2 /\
        w_fs (snd r) !! resolve (w_cwd (snd r)) "staff_detector.tflite"
          = Some (File b1) /\
        w_fs (snd r) !! resolve (w_cwd (snd r)) "symbol_recognizer.tflite"
          = Some (File b2)) /\
  (forall self wf,
      (EvMockStart ∈ w_out (snd (Full.convert_and_validate env self wf)) ->
       EvMockStart ∈ w_out wf) /\
      exists verdict, fst (Full.convert_and_validate env self wf) = Ok verdict).
Proof.
  intros Hi Hout r.
  pose proof (convert_models_cases env w Hi) as Hc.
  pose proof (no_mock_banner_real_chain env (after_banner w)) as Hq.
  assert (Hab : EvMockStart ∉ w_out (after_banner w)).
  { cbn. rewrite elem_of_app, list_elem_of_singleton.
    intros [H|H]; [now apply Hout | discriminate]. }
  destruct (real_chain env (after_banner w)) as [[b0|[e|code]] wr] eqn:Hr;
    cbn [snd] in Hq; [| |contradiction].
  - (* the chain returned *)
    fold r in Hc. rewrite Hc. cbn [fst snd].
    split; [|split; [|split]].
    + split.
      * intros H. exfalso. apply Hab, Hq, H.
      * intros (e & wr' & H). discriminate.
    + intros b wr' H. congruence.
    + intros e wr' b H. discriminate.
    + intros self wf. split; [apply (no_mock_banner_full env self wf)|].
      apply convert_and_validate_total.
  - (* the chain raised *)
    destruct Hc as (wr' & Hfs & Hcwd & Hbanner & Heq). fold r in Heq.
    destruct Hi as (Htf & _ & Hnp).
    split; [|split; [|split]].
    + split; [eauto|]. intros _. rewrite Heq.
      now apply create_mock_prints_banner.
    + intros b wr0 H. discriminate.
    + intros e0 wr0 b _ Hb.
      destruct r as [rr w'] eqn:Er. cbn [fst snd] in *. subst rr.
      symmetry in Heq. apply create_mock_Ok in Heq.
      destruct Heq as (_ & Hcwd' & _ & b1 & b2 & H1 & H2 & H3 & H4).
      exists b1, b2. rewrite Hcwd'. auto.
    + intros self wf. split; [apply (no_mock_banner_full env self wf)|].
      apply convert_and_validate_total.
Qed.

Lemma fallback_is_per_run_witness :
  let r := Simple.convert_models env_symbol_bridge_fails w0 in
  EvMockStart ∈ w_out (snd r) /\
  w_fs (snd r) !! "/work/staff_detector.tflite" = Some (File (MkBytes 5000 7)).
Proof.
  pose proof (fallback_is_per_run env_symbol_bridge_fails w0
                ltac:(now repeat split) ltac:(apply not_elem_of_nil))
    as (Hiff & _ & Hmock & _).
  cbv zeta in *. split.
  - apply Hiff. eexists _, _. vm_compute. reflexivity.
  - edestruct Hmock as (b1 & b2 & H1 & _ & H3 & _).
    { vm_compute. reflexivity. }
    { vm_compute. reflexivity. }
    vm_compute in H1. injection H1 as <-. exact H3.
Defined.

(** C2 as stated fails.  When onnx-tf rejects the symbol model, the staff
    job has loaded, bridged and converted: its real artifact is on disk
    when the chain raises.  The fallback then regenerates both models and
    the staff artifact ends up a mock.  In the full script a missing staff
    checkpoint yields no artifact at all, real or mock. *)
Lemma fallback_replaces_finished_real_artifact :
  (exists e wr,
      real_chain env_symbol_bridge_fails (after_banner w0) = (Raise (Exc e), wr) /\
      w_fs wr !! "/work/staff_detector.tflite" = Some (File (MkBytes 10 1))) /\
  (let r := Simple.convert_models env_symbol_bridge_fails w0 in
   fst r = Ok true /\
   w_fs (snd r) !! "/work/staff_detector.tflite" = Some (File (MkBytes 5000 7))) /\
  (let r := Full.convert_and_validate env_staff_checkpoint_missing self0 w0 in
   fst r = Ok false /\
   w_fs (snd r) !! "/work/out/staff_detector.tflite" = None /\
   w_fs (snd r) !! "/work/out/symbol_recognizer.tflite" = None).
Proof.
  split; [|split].
  - eexists _, _. split; vm_compute; reflexivity.
  - vm_compute. split; reflexivity.
  - vm_compute. repeat split; reflexivity.
Qed.


(** The generator does return on a working installation. *)
Example create_mock_returns :
  fst (Simple.create_mock_tflite_models env_ok w0) = Ok true.
Proof. vm_compute. reflexivity. Qed.

(** ** Two mock-only runs *)

Lemma bind_exit_inv {A B} (m : M A) (k : A -> M B) w c w' :
  no_exit m ->
  bind m k w = (Raise (SystemExit c), w') ->
  exists a w1, m w = (Ok a, w1) /\ k a w1 = (Raise (SystemExit c), w').
Proof.
  intros Hne. unfold bind. specialize (Hne w).
  destruct (m w) as [[a|[e|c']] w1]; cbn [fst] in *.
  - eauto.
  - discriminate.
  - now destruct (Hne c').
Qed.

Lemma main_check_no_exit env args :
  Simple.check_only args = false -> no_exit (main_check env args).
Proof.
  intros Hco w c Hc. apply (main_check_exits env args w c) in Hc.
  destruct Hc as [_ Hc]. congruence.
Qed.

Lemma chdir_Ok path w u w' :
  chdir path w = (Ok u, w') ->
  w_fs w' = w_fs w /\ w_cwd w' = resolve (w_cwd w) path.
Proof.
  unfold chdir.
  destruct (w_fs w !! resolve (w_cwd w) path) as [[b|]|]; inversion 1; now split.
Qed.











(** * Properties of the artifacts and intermediate files *)

(** C5, as amended.  When [pytorch_to_tflite] of the full script returns,
    the ONNX file and the SavedModel directory it wrote, with everything
    below it, are gone.  The simplified script removes no file at all: every
    path present before [convert_models] is present after it. *)
Theorem intermediates_removed_when_conversion_returns
    (env : Env) (self : Full.OemerToTFLiteConverter) (m : TorchModel)
    (shape : list N) (name q : string) (w : World) (r : string * Q) (w' : World) :
  Full.pytorch_to_tflite env self m shape name q w = (Ok r, w') ->
  w_fs w' !! resolve (w_cwd w) (Full.onnx_path_of self name) = None /\
  w_fs w' !! resolve (w_cwd w) (Full.saved_model_dir_of self name) = None /\
  (forall k, is_under (resolve (w_cwd w) (Full.saved_model_dir_of self name)) k = true ->
             w_fs w' !! k = None) /\
  (forall env' ws k,
      is_Some (w_fs ws !! k) ->
      is_Some (w_fs (snd (Simple.convert_models env' ws)) !! k)).
Proof.
  intros H. apply pytorch_to_tflite_Ok in H.
  destruct H as (c & w1 & c' & Hb & _ & Hf).
  destruct (bridge_post env self name m shape w c w1 Hb) as (Hcwd & _ & Hdir & _).
  edestruct (finish_post env self name c' w1) as (_ & b & _ & _ & _ & H1 & H2 & H3).
  { rewrite Hcwd. exact Hdir. }
  { exact Hf. }
  rewrite Hcwd in H1, H2, H3.
  repeat split; try assumption.
  intros env' ws. apply (grows_convert_models env' ws).
Qed.

Lemma intermediates_removed_when_conversion_returns_witness :
  let w' := snd (Full.pytorch_to_tflite env_ok self0 staff_torch [1; 3; 512; 512]
                                         "staff_detector" "float16" w0) in
  w_fs w' !! "/work/out/staff_detector.onnx" = None /\
  w_fs w' !! "/work/out/staff_detector_saved_model" = None.
Proof.
  cbv zeta.
  pose proof (intermediates_removed_when_conversion_returns env_ok self0 staff_torch
                [1; 3; 512; 512] "staff_detector" "float16" w0
                ("out/staff_detector.tflite", size_mb 10)
                (snd (Full.pytorch_to_tflite env_ok self0 staff_torch [1; 3; 512; 512]
                                             "staff_detector" "float16" w0)))
    as H.
  destruct H as (H1 & H2 & _).
  { vm_compute. reflexivity. }
  split; [exact H1 | exact H2].
Defined.

(** C5 as stated fails on both scripts.  In the full script a converter
    error leaves the call with the ONNX file and the SavedModel directory
    still on disk; in the simplified script they stay even after a
    successful conversion. *)
Lemma intermediate_files_survive :
  (let r := Full.pytorch_to_tflite env_convert_fails self0 staff_torch [1; 3; 512; 512]
                                   "staff_detector" "float16" w0 in
   fst r = Raise (Exc (RuntimeError
                         "Conversion failed for staff_detector: conversion error")) /\
   w_fs (snd r) !! "/work/out/staff_detector.onnx" = Some (File (MkBytes 100 1)) /\
   w_fs (snd r) !! "/work/out/staff_detector_saved_model" = Some Dir) /\
  (let r := Simple.convert_models env_ok w0 in
   fst r = Ok true /\
   w_fs (snd r) !! "/work/staff_detector.onnx" = Some (File (MkBytes 100 1)) /\
   w_fs (snd r) !! "/work/staff_detector_tf" = Some Dir).
Proof. vm_compute. repeat split; reflexivity. Qed.



(** * The size budget *)



(** ** The verdict of the full script *)








Definition full_args : Full.Args := Full.MkArgs "out" false None.





(** * Further properties *)

(** ** The dependency check of the simplified script *)

(** [env] with other outcomes for the imports. *)
Definition with_imports (imp : string -> option Exception) (env : Env) : Env :=
  {| py_import := imp;
     cuda_is_available := cuda_is_available env;
     download_pretrained_model := download_pretrained_model env;
     load_from_checkpoint := load_from_checkpoint env;
     torch_randn := torch_randn env;
     torch_jit_trace := torch_jit_trace env;
     torch_onnx_export := torch_onnx_export env;
     onnx_parse := onnx_parse env;
     onnx_tf_prepare := onnx_tf_prepare env;
     tf_rep_export_graph := tf_rep_export_graph env;
     saved_model_parse := saved_model_parse env;
     tflite_convert := tflite_convert env;
     keras_initial_weights := keras_initial_weights env;
     fs_dir_size := fs_dir_size env |}.

Definition no_module (pkg : string) : Exception :=
  MkExc "ModuleNotFoundError" ("No module named " +:+ pkg).

(** A machine without oemer. *)
Definition env_no_oemer : Env :=
  with_imports (fun pkg => if orb (String.eqb pkg "oemer") (String.eqb pkg "oemer.models")
                           then Some (no_module pkg) else None)
               env_ok.



(** The requirement strings of the packages whose import raises, in the
    order of the table. *)
Fixpoint missing_of (env : Env) (pkgs : list (string * string)) : list string :=
  match pkgs with
  | [] => []
  | (package, version) :: rest =>
      match py_import env package with
      | None => missing_of env rest
      | Some _ => (package +:+ "==" +:+ version) :: missing_of env rest
      end
  end.

(** Every import of the table that fails does so with an [ImportError]. *)
Definition only_import_errors (env : Env) (pkgs : list (string * string)) : Prop :=
  forall p v e, In (p, v) pkgs -> py_import env p = Some e -> is_ImportError e = true.

Lemma probe_collects env pkgs missing w :
  only_import_errors env pkgs ->
  Simple.probe env pkgs missing w = (Ok (missing ++ missing_of env pkgs)%list, w).
Proof.
  revert missing. induction pkgs as [|[p v] rest IH]; intros missing Honly.
  - cbn. now rewrite app_nil_r.
  - assert (Hrest : only_import_errors env rest).
    { intros p' v' e' Hin. apply (Honly p' v' e'). now right. }
    cbn [Simple.probe missing_of].
    destruct (py_import env p) as [e|] eqn:Hp.
    + rewrite (Honly p v e (or_introl eq_refl) Hp).
      rewrite (IH _ Hrest). now rewrite <- app_assoc.
    + now apply IH.
Qed.

Definition printed (ev : Event) (w : World) : World :=
  MkWorld (w_fs w) (w_cwd w) (w_out w ++ [ev]).

(** X1. When every failing import of the four required packages fails with
    an [ImportError], [check_dependencies] returns without any effect if
    none is missing; otherwise it prints the requirement strings of exactly
    the missing packages, in table order, and calls [sys.exit(1)]. *)
Theorem check_dependencies_reports_missing (env : Env) (w : World) :
  only_import_errors env Simple.PACKAGES_REQUIRED ->
  Simple.check_dependencies env w
  = match missing_of env Simple.PACKAGES_REQUIRED with
    | [] => (Ok tt, w)
    | missing => (Raise (SystemExit 1), printed (EvDepsMissing missing) w)
    end.
Proof.
  intros Honly. unfold Simple.check_dependencies.
  rewrite (bind_run _ _ _ _ _ (probe_collects env _ [] w Honly)).
  cbn [app]. now destruct (missing_of env Simple.PACKAGES_REQUIRED).
Qed.

Lemma only_import_errors_no_oemer :
  only_import_errors env_no_oemer Simple.PACKAGES_REQUIRED.
Proof.
  intros p v e Hin. cbn in Hin.
  destruct Hin as [H|[H|[H|[H|[]]]]]; injection H as <- <-; cbn; try discriminate.
  now intros [= <-].
Qed.

Lemma check_dependencies_reports_missing_witness :
  Simple.check_dependencies env_no_oemer w0
  = (Raise (SystemExit 1), printed (EvDepsMissing ["oemer==latest"]) w0).
Proof.
  exact (check_dependencies_reports_missing env_no_oemer w0 only_import_errors_no_oemer).
Defined.



(** ** [main] of the simplified script *)

Lemma main_check_run env args w :
  only_import_errors env Simple.PACKAGES_REQUIRED ->
  main_check env args w
  = match missing_of env Simple.PACKAGES_REQUIRED with
    | [] => (Ok tt, printed EvDepsOk w)
    | missing =>
        if Simple.check_only args
        then (Raise (SystemExit 1), printed (EvDepsMissing missing) w)
        else (Ok tt, printed EvDepsWarning (printed (EvDepsMissing missing) w))
    end.
Proof.
  intros Honly. unfold main_check, try_except_SystemExit.
  unfold bind at 1. rewrite (check_dependencies_reports_missing env w Honly).
  destruct (missing_of env Simple.PACKAGES_REQUIRED) as [|x xs]; [reflexivity|].
  now destruct (Simple.check_only args).
Qed.

(** X3. In check-only mode [main] touches neither the file system nor the
    working directory (the output directory is not created), and, when
    failing imports fail with [ImportError], it exits with code 0 if all
    four required packages import and with code 1 otherwise. *)
Theorem check_only_run_reports_and_leaves_disk
    (env : Env) (args : Simple.Args) (w : World) :
  Simple.check_only args = true ->
  only_import_errors env Simple.PACKAGES_REQUIRED ->
  let r := Simple.main env args w in
  fst r = Raise (SystemExit (match missing_of env Simple.PACKAGES_REQUIRED with
                             | [] => 0%Z
                             | _ => 1%Z
                             end)) /\
  w_fs (snd r) = w_fs w /\ w_cwd (snd r) = w_cwd w.
Proof.
  intros Hco Honly r.
  pose proof (main_check_run env args w Honly) as Hc. rewrite Hco in Hc.
  assert (Hr : exists w', r = (Raise (SystemExit
                                  (match missing_of env Simple.PACKAGES_REQUIRED with
                                   | [] => 0%Z
                                   | _ => 1%Z
                                   end)), w') /\
                          w_fs w' = w_fs w /\ w_cwd w' = w_cwd w).
  { subst r. rewrite simple_main_eq.
    destruct (missing_of env Simple.PACKAGES_REQUIRED) as [|x xs].
    - rewrite (bind_run _ _ _ _ _ Hc), Hco. eexists. split; [reflexivity|]. now split.
    - rewrite (bind_raise_run _ _ _ _ _ Hc). eexists. split; [reflexivity|]. now split. }
  destruct Hr as (w' & -> & Hfs & Hcwd). now repeat split.
Qed.

Lemma check_only_run_reports_and_leaves_disk_witness :
  let r := Simple.main env_no_oemer (Simple.MkArgs "out" true false) w_prior in
  fst r = Raise (SystemExit 1) /\ w_fs (snd r) = w_fs w_prior /\
  w_cwd (snd r) = w_cwd w_prior.
Proof.
  exact (check_only_run_reports_and_leaves_disk env_no_oemer
           (Simple.MkArgs "out" true false) w_prior eq_refl
           only_import_errors_no_oemer).
Defined.






(** X5. A plain file at the output path stops both scripts on an uncaught
    [FileExistsError] before anything is loaded or converted: the file
    system is left as it was. *)
Theorem output_path_is_a_file
    (env : Env) (sargs : Simple.Args) (fargs : Full.Args) (w : World) (b b' : Bytes) :
  Simple.check_only sargs = false ->
  only_import_errors env Simple.PACKAGES_REQUIRED ->
  w_fs w !! resolve (w_cwd w) (Simple.output sargs) = Some (File b) ->
  w_fs w !! resolve (w_cwd w) (Full.output fargs) = Some (File b') ->
  (fst (Simple.main env sargs w) = Raise (Exc (FileExistsError (Simple.output sargs))) /\
   w_fs (snd (Simple.main env sargs w)) = w_fs w) /\
  Full.main env fargs w = (Raise (Exc (FileExistsError (Full.output fargs))), w).
Proof.
  intros Hco Honly Hs Hf. split.
  - rewrite simple_main_eq.
    pose proof (main_check_run env sargs w Honly) as Hc. rewrite Hco in Hc.
    assert (Hk : exists wa, main_check env sargs w = (Ok tt, wa) /\
                            w_fs wa = w_fs w /\ w_cwd wa = w_cwd w).
    { destruct (missing_of env Simple.PACKAGES_REQUIRED); eauto. }
    destruct Hk as (wa & Hk & Hfs & Hcwd).
    rewrite (bind_run _ _ _ _ _ Hk), Hco.
    erewrite bind_run by reflexivity.
    erewrite bind_raise_run.
    2:{ unfold mkdir_parents_exist_ok. rewrite Hfs, Hcwd, Hs. reflexivity. }
    now split.
  - unfold Full.main. apply bind_raise_run. unfold Full.init. apply bind_raise_run.
    unfold mkdir_parents_exist_ok. now rewrite Hf.
Qed.

Lemma output_path_is_a_file_witness :
  Full.main env_ok (Full.MkArgs "out/staff_detector.tflite" false None) w_prior
  = (Raise (Exc (FileExistsError "out/staff_detector.tflite")), w_prior).
Proof.
  refine (proj2 (output_path_is_a_file env_ok
                   (Simple.MkArgs "out/staff_detector.tflite" false false)
                   (Full.MkArgs "out/staff_detector.tflite" false None)
                   w_prior (MkBytes 999 5) (MkBytes 999 5) eq_refl _ _ _)).
  - intros p v e _. cbn. discriminate.
  - vm_compute. reflexivity.
  - vm_compute. reflexivity.
Defined.

(** ** The loaders of the full script *)

(** Nothing on disk or in the working directory changes. *)
Definition disk_untouched : World -> World -> Prop := frame (fun _ _ => False).

Lemma disk_untouched_eq w w' :
  disk_untouched w w' -> w_fs w' = w_fs w /\ w_cwd w' = w_cwd w.
Proof.
  intros [Hc Hf]. split; [|exact Hc]. apply map_eq. intros k. apply Hf. tauto.
Qed.





(** ** More on [pytorch_to_tflite] *)














(** ** The end of a successful full run *)











(** ** Quiet runs of the full script *)

Definition same_out (w w' : World) : Prop := w_out w' = w_out w.

Lemma same_out_refl w : same_out w w.
Proof. reflexivity. Qed.

Lemma same_out_trans a b c : same_out a b -> same_out b c -> same_out a c.
Proof. unfold same_out. congruence. Qed.

Lemma quiet_log self ev :
  Full.verbose self = false -> preserves same_out (Full.log self ev).
Proof. intros H w. unfold Full.log. now rewrite H. Qed.

Lemma same_out_copy2 src name dest : preserves same_out (Full.copy2 src name dest).
Proof.
  unfold Full.copy2. apply (preserves_bind _ same_out_trans).
  - apply (preserves_read_file _ same_out_refl).
  - intros data w. unfold same_out.
    destruct (w_fs w !! resolve (w_cwd w) dest) as [[b|]|]; apply out_open_wb_write.
Qed.

Lemma same_out_copy_all args from target names :
  Full.quiet args = true ->
  preserves same_out (Full.copy_all args from target names).
Proof.
  intros Hq. induction names as [|name rest IH]; cbn [Full.copy_all].
  - apply (preserves_ret _ same_out_refl).
  - rewrite Hq.
    apply (preserves_bind _ same_out_trans); [apply same_out_copy2|]. intros _.
    apply (preserves_bind _ same_out_trans); [apply (preserves_ret _ same_out_refl)|].
    intros _. exact IH.
Qed.

(** As [pres_with], with the quiet [log] tried before the conditionals. *)
Ltac quiet_tac Hv :=
  repeat (intros;
    first
      [ apply (quiet_log _ _ Hv)
      | apply (preserves_ret _ same_out_refl)
      | apply (preserves_raise _ same_out_refl)
      | apply (preserves_lift _ same_out_refl)
      | apply (preserves_import _ same_out_refl)
      | apply (preserves_read_file _ same_out_refl)
      | apply (preserves_getsize _ same_out_refl)
      | intros ?; apply out_open_wb_write
      | intros ?; apply out_mkdir
      | intros ?; apply out_os_remove
      | intros ?; apply out_rmtree
      | apply (preserves_bind _ same_out_trans)
      | apply (preserves_try_except _ same_out_trans)
      | apply preserves_if ]).

Lemma same_out_pytorch_to_tflite env self m shape name q :
  Full.verbose self = false ->
  preserves same_out (Full.pytorch_to_tflite env self m shape name q).
Proof.
  intros Hv.
  unfold Full.pytorch_to_tflite, Full.pytorch_to_tflite_body, Full.bridge,
    Full.apply_quantization, Full.finish, onnx_export, onnx_load, export_graph,
    from_saved_model, convert, getsize_mb.
  quiet_tac Hv.
Qed.

Lemma same_out_convert_and_validate env self :
  Full.verbose self = false ->
  preserves same_out (Full.convert_and_validate env self).
Proof.
  intros Hv.
  unfold Full.convert_and_validate, Full.load_oemer_staff_detection_model,
    Full.load_oemer_symbol_recognition_model.
  repeat (intros;
    first
      [ apply (quiet_log _ _ Hv)
      | apply (same_out_pytorch_to_tflite _ _ _ _ _ _ Hv)
      | apply (preserves_ret _ same_out_refl)
      | apply (preserves_raise _ same_out_refl)
      | apply (preserves_lift _ same_out_refl)
      | apply (preserves_bind _ same_out_trans)
      | apply (preserves_try_except _ same_out_trans)
      | match goal with
        | |- preserves _ (if ?b then Full.log _ _ else Full.log _ _) => destruct b
        end ]).
Qed.

Lemma same_out_init env out v : preserves same_out (Full.init env out v).
Proof.
  unfold Full.init.
  apply (preserves_bind _ same_out_trans); [intros ?; apply out_mkdir|].
  intros _. apply (preserves_ret _ same_out_refl).
Qed.

(** X11. With [--quiet], [main] of the full script writes nothing to
    standard output, whatever the outcome of the loads, the conversions
    and the copy to the target directory. *)
Theorem quiet_run_prints_nothing (env : Env) (args : Full.Args) (w : World) :
  Full.quiet args = true ->
  w_out (snd (Full.main env args w)) = w_out w.
Proof.
  intros Hq. unfold Full.main.
  pose proof (same_out_init env (Full.output args) (negb (Full.quiet args)) w) as Hi0.
  destruct (Full.init env (Full.output args) (negb (Full.quiet args)) w)
    as [[self|e] w1] eqn:Hi; cbn [snd] in Hi0.
  - assert (Hv : Full.verbose self = false).
    { unfold Full.init in Hi. apply bind_Ok in Hi. destruct Hi as (u & wm & _ & Hr).
      apply ret_Ok in Hr. destruct Hr as [<- _]. cbn. now rewrite Hq. }
    rewrite (bind_run _ _ _ _ _ Hi).
    match goal with
    | |- w_out (snd (?k w1)) = _ => assert (Hk : preserves same_out k)
    end.
    { apply (preserves_bind _ same_out_trans);
        [now apply same_out_convert_and_validate|].
      intros success.
      apply (preserves_bind _ same_out_trans);
        [|intros; apply (preserves_sys_exit _ same_out_refl)].
      destruct (Full.wants_copy success args);
        [|apply (preserves_ret _ same_out_refl)].
      apply (preserves_bind _ same_out_trans); [intros ?; apply out_mkdir|]. intros _.
      apply (preserves_bind _ same_out_trans); [intros ?; reflexivity|].
      intros names. now apply same_out_copy_all. }
    rewrite (Hk w1). exact Hi0.
  - rewrite (bind_raise_run _ _ _ _ _ Hi). exact Hi0.
Qed.

Lemma quiet_run_prints_nothing_witness :
  w_out (snd (Full.main env_ok (Full.MkArgs "out" true (Some "models")) w0)) = [].
Proof.
  exact (quiet_run_prints_nothing env_ok (Full.MkArgs "out" true (Some "models")) w0
           eq_refl).
Defined.

(** ** The import guards of the full script *)

(** Every package of the list imports. *)
Definition importable (env : Env) (pkgs : list string) : bool :=
  forallb (fun pkg => match py_import env pkg with None => true | Some _ => false end)
          pkgs.

Definition guarded_packages : list string :=
  ["tensorflow"; "tensorflow.lite.python"; "torch"; "torchvision"; "oemer.models"].

Lemma guarded_import_run env pkgs what w :
  (forall p e, In p pkgs -> py_import env p = Some e -> is_ImportError e = true) ->
  Full.guarded_import env pkgs what w
  = if importable env pkgs then (Ok tt, w)
    else (Raise (SystemExit 1), printed (EvImportError what) w).
Proof.
  unfold Full.guarded_import.
  induction pkgs as [|p rest IH]; intros Honly; [reflexivity|].
  cbn [fold_right importable forallb].
  unfold bind at 1, import_ at 1.
  destruct (py_import env p) as [e|] eqn:Hp.
  - cbn. now rewrite (Honly p e (or_introl eq_refl) Hp).
  - cbn [ret andb]. apply IH. intros p' e' Hin. apply Honly. now right.
Qed.

(** X12. The full script has no fallback for a missing dependency.  With
    numpy present and failing imports failing with [ImportError], running
    the script exits with code 1 before [main] starts, naming the first
    incomplete group among TensorFlow, PyTorch (torch and torchvision) and
    oemer, and leaves the file system untouched; when all of them import,
    the script is [main]. *)
Theorem missing_dependency_stops_full_script
    (env : Env) (args : Full.Args) (w : World) :
  py_import env "numpy" = None ->
  (forall p e, In p guarded_packages -> py_import env p = Some e ->
               is_ImportError e = true) ->
  Full.script env args w
  = if negb (importable env ["tensorflow"; "tensorflow.lite.python"]) then
      (Raise (SystemExit 1), printed (EvImportError "TensorFlow") w)
    else if negb (importable env ["torch"; "torchvision"]) then
      (Raise (SystemExit 1), printed (EvImportError "PyTorch") w)
    else if negb (importable env ["oemer.models"]) then
      (Raise (SystemExit 1), printed (EvImportError "oemer") w)
    else Full.main env args w.
Proof.
  intros Hnp Honly.
  assert (Hnumpy : import_ env "numpy" w = (Ok tt, w)).
  { unfold import_. now rewrite Hnp. }
  pose proof (guarded_import_run env ["tensorflow"; "tensorflow.lite.python"]
                "TensorFlow" w) as H1.
  pose proof (guarded_import_run env ["torch"; "torchvision"] "PyTorch" w) as H2.
  pose proof (guarded_import_run env ["oemer.models"] "oemer" w) as H3.
  specialize (H1 ltac:(intros p e Hin; apply Honly; cbn in *; tauto)).
  specialize (H2 ltac:(intros p e Hin; apply Honly; cbn in *; tauto)).
  specialize (H3 ltac:(intros p e Hin; apply Honly; cbn in *; tauto)).
  unfold Full.script, Full.module_imports.
  destruct (importable env ["tensorflow"; "tensorflow.lite.python"]); cbn [negb].
  2:{ apply bind_raise_run. rewrite (bind_run _ _ _ _ _ Hnumpy).
      now apply bind_raise_run. }
  destruct (importable env ["torch"; "torchvision"]); cbn [negb].
  2:{ apply bind_raise_run. rewrite (bind_run _ _ _ _ _ Hnumpy).
      rewrite (bind_run _ _ _ _ _ H1). now apply bind_raise_run. }
  destruct (importable env ["oemer.models"]); cbn [negb].
  2:{ apply bind_raise_run. rewrite (bind_run _ _ _ _ _ Hnumpy).
      rewrite (bind_run _ _ _ _ _ H1). now rewrite (bind_run _ _ _ _ _ H2). }
  rewrite (bind_run _ _ w tt w); [reflexivity|].
  rewrite (bind_run _ _ _ _ _ Hnumpy).
  rewrite (bind_run _ _ _ _ _ H1). now rewrite (bind_run _ _ _ _ _ H2).
Qed.

Lemma missing_dependency_stops_full_script_witness :
  Full.script env_no_oemer full_args w0
  = (Raise (SystemExit 1), printed (EvImportError "oemer") w0).
Proof.
  refine (missing_dependency_stops_full_script env_no_oemer full_args w0 eq_refl _).
  intros p e Hin. cbn in Hin.
  destruct Hin as [H|[H|[H|[H|[H|[]]]]]]; subst p; cbn; try discriminate.
  now intros [= <-].
Defined.

(** ** What the simplified script writes *)

(** The names [convert_models] may write in the working directory. *)
Definition simple_names : list string :=
  ["staff_detector.onnx"; "symbol_recognizer.onnx";
   "staff_detector_tf"; "staff_detector_tf/saved_model.pb"; "staff_detector.tflite";
   "symbol_recognizer_tf"; "symbol_recognizer_tf/saved_model.pb";
   "symbol_recognizer.tflite"].

Definition simple_footprint (c k : string) : Prop :=
  In k (map (resolve c) simple_names).


Ltac in_names := cbn; repeat (first [left; reflexivity | right]).

Ltac simple_frame_tac P :=
  pres_with (frame_refl P) (frame_trans P)
            ltac:(first [ apply frame_print
                        | apply frame_open_wb_write; intros; hnf; in_names
                        | apply frame_mkdir; intros; hnf; in_names
                        | match goal with
                          | |- preserves _ (match ?x with _ => _ end) => destruct x
                          end ]).





(** ** Where the real artifacts of the simplified script come from *)

(** [b] is what the libraries make of [model]: traced on a random input of
    the given shape, exported to ONNX, parsed, rebuilt as a TensorFlow
    graph, saved, read back and converted with the float16 settings. *)
Definition converted_from (env : Env) (model : TorchModel) (shape : list N)
    (b : Bytes) : Prop :=
  exists input x o t y g,
    torch_randn env shape None = inr input /\
    torch_onnx_export env model input Simple.export_opts = inr x /\
    onnx_parse env x = inr o /\
    onnx_tf_prepare env o = inr t /\
    tf_rep_export_graph env t = inr y /\
    saved_model_parse env y = inr g /\
    tflite_convert env (float16_converter (FromSavedModel g)) = inr b.

(** Two relative names give different keys. *)
Ltac key_ne :=
  rewrite !resolve_relative by reflexivity;
  apply append_suffix_ne;
  let Hk := fresh "Hk" in
  intros Hk; vm_compute in Hk; discriminate Hk.

(** Expresses every later world through the first one. *)
Ltac norm_worlds :=
  repeat match goal with
    | H : w_cwd ?x = w_cwd ?y |- _ => rewrite ?H in *; clear H
    | H : w_fs ?x = _ |- _ => rewrite ?H in *; clear H
    end.

Lemma convert_loaded_artifacts
    (env : Env) (staff_model clef_model : TorchModel) (w : World) (r : bool) (w' : World) :
  Simple.convert_loaded env staff_model clef_model w = (Ok r, w') ->
  exists b1 b2,
    converted_from env staff_model [1; 3; 512; 512] b1 /\
    converted_from env clef_model [1; 3; 128; 128] b2 /\
    w_fs w' !! resolve (w_cwd w) "staff_detector.tflite" = Some (File b1) /\
    w_fs w' !! resolve (w_cwd w) "symbol_recognizer.tflite" = Some (File b2).
Proof.
  intros H.
  unfold Simple.convert_loaded, Simple.onnx_to_tflite, onnx_export, onnx_load,
    export_graph, from_saved_model, convert, getsize_mb in H.
  inv_ok.
  match goal with
  | H : (if ?t then _ else _) _ = (Ok _, _) |- _ =>
      destruct t; apply print_Ok in H; destruct H as (? & ? & _)
  end;
  repeat match goal with
         | H : w_out _ = _ |- _ => clear H
         | H : forall b : Bytes, _ -> _ = b_len b |- _ => clear H
         end;
  norm_worlds;
  repeat match goal with
         | H : _ !! _ = Some (File _) |- _ =>
             repeat (rewrite lookup_insert_ne in H by key_ne);
             rewrite lookup_insert_eq in H; injection H as <-
         end;
  (do 2 eexists; split; [|split; [|split]];
   [ unfold converted_from; do 6 eexists; repeat (split; [eassumption|]); eassumption
   | unfold converted_from; do 6 eexists; repeat (split; [eassumption|]); eassumption
   | repeat (rewrite lookup_insert_ne by key_ne); apply lookup_insert_eq
   | repeat (rewrite lookup_insert_ne by key_ne); apply lookup_insert_eq ]).
Qed.

(** X14. When the conversion block of the simplified script returns, each
    artifact derives from its own model: the ONNX file that [onnx.load]
    reads back is the one exported from that model (both exports happen
    before either is read), the SavedModel read by the converter is the one
    just exported from it, and the artifact file holds the float16
    conversion of that SavedModel. *)
Theorem real_artifacts_derive_from_their_own_models
    (env : Env) (staff_model clef_model : TorchModel) (w : World) (r : bool) (w' : World) :
  Simple.convert_loaded env staff_model clef_model w = (Ok r, w') ->
  exists b1 b2,
    converted_from env staff_model [1; 3; 512; 512] b1 /\
    converted_from env clef_model [1; 3; 128; 128] b2 /\
    w_fs w' !! resolve (w_cwd w) "staff_detector.tflite" = Some (File b1) /\
    w_fs w' !! resolve (w_cwd w) "symbol_recognizer.tflite" = Some (File b2).
Proof.
  intros H.
  exact (convert_loaded_artifacts env staff_model clef_model w r w' H).
Qed.

Lemma real_artifacts_derive_from_their_own_models_witness :
  exists b1 b2,
    converted_from env_ok staff_torch [1; 3; 512; 512] b1 /\
    converted_from env_ok (MkTorchModel Clef "clef.ckpt" false) [1; 3; 128; 128] b2 /\
    b_len b1 = 10 /\ b_len b2 = 20.
Proof.
  edestruct (real_artifacts_derive_from_their_own_models env_ok staff_torch
               (MkTorchModel Clef "clef.ckpt" false) w0 true
               (snd (Simple.convert_loaded env_ok staff_torch
                       (MkTorchModel Clef "clef.ckpt" false) w0)))
    as (b1 & b2 & H1 & H2 & H3 & H4).
  { vm_compute. reflexivity. }
  exists b1, b2. split; [exact H1|]. split; [exact H2|].
  vm_compute in H3, H4. injection H3 as <-. injection H4 as <-. now split.
Defined.

(** ** A full run without a checkpoint *)




(** ** What exit code 0 promises *)

Lemma real_chain_frame env : preserves (frame simple_footprint) (real_chain env).
Proof.
  unfold real_chain, Simple.load_models, Simple.convert_loaded,
    Simple.onnx_to_tflite, onnx_export, onnx_load, export_graph, from_saved_model,
    convert, getsize_mb.
  simple_frame_tac simple_footprint.
Qed.

Lemma load_models_frame env : preserves disk_untouched (Simple.load_models env).
Proof.
  unfold Simple.load_models, disk_untouched.
  pres_with (frame_refl (fun _ _ : string => False))
            (frame_trans (fun _ _ : string => False))
            ltac:(apply frame_print).
Qed.

(** When [convert_models] returns, both artifacts are files in the working
    directory. *)
Lemma convert_models_leaves_artifacts env w b w' :
  Simple.convert_models env w = (Ok b, w') ->
  exists b1 b2,
    w_fs w' !! resolve (w_cwd w) "staff_detector.tflite" = Some (File b1) /\
    w_fs w' !! resolve (w_cwd w) "symbol_recognizer.tflite" = Some (File b2).
Proof.
  intros H.
  assert (Hi : imports_ok env).
  { unfold Simple.convert_models in H. inv_ok. now repeat split. }
  pose proof (convert_models_cases env w Hi) as Hc.
  pose proof (real_chain_frame env (after_banner w)) as [Hcwd _].
  destruct (real_chain env (after_banner w)) as [[b0|[e|code]] wr] eqn:Hr;
    cbn [snd] in Hcwd; [| |contradiction].
  - rewrite Hc in H. injection H as _ <-.
    unfold real_chain in Hr. apply bind_Ok in Hr.
    destruct Hr as ([sm cm] & wl & Hl & Hconv). cbn [fst snd] in Hconv.
    pose proof (disk_untouched_eq _ _ (load_models_frame env (after_banner w)))
      as [_ Hcl].
    rewrite Hl in Hcl. cbn [snd after_banner w_cwd] in Hcl.
    apply convert_loaded_artifacts in Hconv.
    destruct Hconv as (b1 & b2 & _ & _ & H1 & H2).
    rewrite Hcl in H1, H2. eauto.
  - destruct Hc as (wr' & _ & Hcwd' & _ & Heq). rewrite Heq in H.
    apply create_mock_Ok in H.
    destruct H as (_ & _ & _ & b1 & b2 & _ & _ & H1 & H2).
    rewrite Hcwd', Hcwd in H1, H2. cbn [after_banner w_cwd] in H1, H2. eauto.
Qed.

(** A run of the simplified script that exits with 0 outside check-only
    mode ran its conversion function to the end in the output directory. *)
Lemma simple_main_exit_0 env args w w' :
  Simple.check_only args = false ->
  Simple.main env args w = (Raise (SystemExit 0), w') ->
  exists w1 b w2,
    w_cwd w1 = resolve (w_cwd w) (Simple.output args) /\
    (if Simple.mock args then Simple.create_mock_tflite_models env
     else Simple.convert_models env) w1 = (Ok b, w2) /\
    w_fs w' = w_fs w2.
Proof.
  intros Hco H. rewrite simple_main_eq in H. rewrite Hco in H.
  apply bind_exit_inv in H; [|now apply main_check_no_exit].
  destruct H as (u1 & wa & Hcheck & H).
  pose proof (main_check_frame env args w) as [Hcwd_a _].
  rewrite Hcheck in Hcwd_a. cbn [snd] in Hcwd_a.
  apply bind_exit_inv in H; [|apply no_exit_ret].
  destruct H as (u2 & wb & Hret & H). apply ret_Ok in Hret. destruct Hret as [_ ->].
  apply bind_exit_inv in H; [|apply no_exit_mkdir].
  destruct H as (u3 & wc & Hmk & H). apply mkdir_Ok in Hmk. destruct Hmk as [_ Hcwd_c].
  apply bind_exit_inv in H; [|apply no_exit_chdir].
  destruct H as (u4 & w1 & Hcd & H). apply chdir_Ok in Hcd. destruct Hcd as [_ Hcwd_1].
  unfold main_convert in H.
  apply bind_exit_inv in H; [|apply no_exit_conversion].
  destruct H as (b & w2 & Hgen & H).
  exists w1, b, w2. split; [congruence|]. split; [exact Hgen|].
  rewrite (conversion_returns_true _ _ _ _ _ Hgen) in H.
  cbn in H. now injection H as <-.
Qed.

(** X16. Outside check-only mode, exit code 0 of the simplified script
    means that both artifact files exist in the output directory, real or
    mock: no run reports success with an artifact missing. *)
Theorem simple_exit_0_means_both_artifacts
    (env : Env) (args : Simple.Args) (w : World) :
  Simple.check_only args = false ->
  fst (Simple.main env args w) = Raise (SystemExit 0) ->
  let out := resolve (w_cwd w) (Simple.output args) in
  let w' := snd (Simple.main env args w) in
  exists b1 b2,
    w_fs w' !! resolve out "staff_detector.tflite" = Some (File b1) /\
    w_fs w' !! resolve out "symbol_recognizer.tflite" = Some (File b2).
Proof.
  intros Hco Hexit out w'. subst w'.
  destruct (Simple.main env args w) as [r wf] eqn:Hm. cbn [fst snd] in *. subst r.
  apply simple_main_exit_0 in Hm; [|exact Hco].
  destruct Hm as (w1 & b & w2 & Hcwd & Hconv & Hfs).
  rewrite Hfs. subst out. rewrite <- Hcwd.
  destruct (Simple.mock args).
  - apply create_mock_Ok in Hconv.
    destruct Hconv as (_ & _ & _ & b1 & b2 & _ & _ & H1 & H2). eauto.
  - now apply convert_models_leaves_artifacts in Hconv.
Qed.

Lemma simple_exit_0_means_both_artifacts_witness :
  let w' := snd (Simple.main env_symbol_bridge_fails (Simple.MkArgs "out" false false)
                             w0) in
  exists b1 b2,
    w_fs w' !! "/work/out/staff_detector.tflite" = Some (File b1) /\
    w_fs w' !! "/work/out/symbol_recognizer.tflite" = Some (File b2).
Proof.
  refine (simple_exit_0_means_both_artifacts env_symbol_bridge_fails
            (Simple.MkArgs "out" false false) w0 eq_refl _).
  vm_compute. reflexivity.
Defined.


